(** * ai-stack-platform: storage schema, dashboard deploy flow, middleware

    A shallow embedding of the parts of the repository that carry
    behaviour:

    - [database.sql]: the four tables, their foreign keys with their
      [ON DELETE] actions, the row-level-security policies and the
      [updated_at] triggers, as statements run against a database
      state;
    - [frontend/middleware.ts]: the authentication redirect;
    - [frontend/app/templates/page.tsx] and its environment-configured
      variant: the [handleDeploy] click handler, as a program over the
      effects it performs (alerts, component state, session lookup,
      requests);
    - [frontend/app/deployments/page.tsx]: the deployments listing;
    - the backend's [deploy], which is not among the sources and is
      written down from the specification.

    Tables are finite maps from primary key to row ([gmap]); [NOT NULL]
    columns carry their value, nullable columns an [option]. The
    definitions come first, the properties after them. *)

From stdpp Require Import gmap strings list fin_maps sorting.

Local Open Scope Z_scope.
Set Warnings "-register-all".

(** ** Schema ([database.sql]) *)

Module Schema.

(** [UUID] values and [TIMESTAMPTZ] instants. Only equality of UUIDs and
    the identity of instants matter to the schema. *)
Abbreviation uuid := string (only parsing).
Abbreviation timestamptz := Z (only parsing).

(** [CREATE TABLE user_profiles]; [id] is the key of the table map. *)
Record user_profile := UserProfile {
  up_email : string;                      (* TEXT NOT NULL UNIQUE *)
  up_full_name : option string;           (* TEXT *)
  up_created_at : option timestamptz;     (* TIMESTAMPTZ DEFAULT NOW() *)
  up_updated_at : option timestamptz      (* TIMESTAMPTZ DEFAULT NOW() *)
}.

(** [CREATE TABLE subscriptions]. *)
Record subscription := Subscription {
  sub_user_id : uuid;                     (* UUID NOT NULL REFERENCES user_profiles(id) ON DELETE CASCADE *)
  sub_user_email : string;                (* TEXT NOT NULL *)
  sub_stripe_subscription_id : string;    (* TEXT NOT NULL *)
  sub_plan_type : string;                 (* TEXT NOT NULL *)
  sub_status : string;                    (* TEXT NOT NULL *)
  sub_created_at : option timestamptz;
  sub_updated_at : option timestamptz
}.

(** [CREATE TABLE deployments]. *)
Record deployment := Deployment {
  dep_user_id : uuid;                     (* UUID NOT NULL REFERENCES user_profiles(id) ON DELETE CASCADE *)
  dep_user_email : string;                (* TEXT NOT NULL *)
  dep_template_id : string;               (* TEXT NOT NULL *)
  dep_droplet_id : option string;         (* TEXT *)
  dep_url : option string;                (* TEXT *)
  dep_status : option string;             (* TEXT *)
  dep_created_at : option timestamptz;
  dep_updated_at : option timestamptz;
  dep_subscription_id : option uuid;      (* UUID REFERENCES subscriptions(id) ON DELETE SET NULL *)
  dep_auto_update_enabled : option bool;  (* BOOLEAN DEFAULT FALSE *)
  dep_update_schedule : option string     (* TEXT *)
}.

(** [CREATE TABLE update_history]; [details JSONB] is kept as text. *)
Record history_entry := HistoryEntry {
  uh_deployment_id : option uuid;         (* UUID REFERENCES deployments(id) ON DELETE CASCADE *)
  uh_updated_at : option timestamptz;
  uh_details : option string
}.

(** The database: [auth.users] (owned by the identity provider, only its
    key set is referenced) and the four tables of the script. *)
Record db := Db {
  auth_users : gset string;
  user_profiles : gmap string user_profile;
  subscriptions : gmap string subscription;
  deployments : gmap string deployment;
  update_history : gmap Z history_entry    (* id BIGSERIAL PRIMARY KEY *)
}.

Definition empty_db : db := Db ∅ ∅ ∅ ∅ ∅.

Definition set_user_profiles (m : gmap string user_profile) (d : db) : db :=
  Db (auth_users d) m (subscriptions d) (deployments d) (update_history d).
Definition set_subscriptions (m : gmap string subscription) (d : db) : db :=
  Db (auth_users d) (user_profiles d) m (deployments d) (update_history d).
Definition set_deployments (m : gmap string deployment) (d : db) : db :=
  Db (auth_users d) (user_profiles d) (subscriptions d) m (update_history d).
Definition set_update_history (m : gmap Z history_entry) (d : db) : db :=
  Db (auth_users d) (user_profiles d) (subscriptions d) (deployments d) m.

(** *** Row-level security *)

Inductive table := T_user_profiles | T_subscriptions | T_deployments | T_update_history.
Inductive command := SELECT | INSERT | UPDATE | DELETE.

Global Instance table_eq_dec : EqDecision table.
Proof. solve_decision. Defined.
Global Instance command_eq_dec : EqDecision command.
Proof. solve_decision. Defined.

(** A row of any of the four tables, as a policy expression sees it. *)
Inductive row :=
| RProfile (id : uuid) (r : user_profile)
| RSubscription (id : uuid) (r : subscription)
| RDeployment (id : uuid) (r : deployment)
| RHistory (id : Z) (r : history_entry).

Definition row_table (r : row) : table :=
  match r with
  | RProfile _ _ => T_user_profiles
  | RSubscription _ _ => T_subscriptions
  | RDeployment _ _ => T_deployments
  | RHistory _ _ => T_update_history
  end.

(** The three boolean expressions that occur in the policies. *)
Inductive policy_expr :=
| UidIsId                 (* auth.uid() = id *)
| UidIsUserId             (* auth.uid() = user_id *)
| OwnsParentDeployment.   (* EXISTS (SELECT 1 FROM deployments WHERE
                             deployments.id = update_history.deployment_id
                             AND deployments.user_id = auth.uid()) *)

(** [CREATE POLICY name ON table FOR command USING (..) WITH CHECK (..)]. *)
Record policy := Policy {
  pol_name : string;
  pol_table : table;
  pol_command : command;
  pol_using : option policy_expr;
  pol_with_check : option policy_expr
}.

(** The eight policies of the script, in script order. *)
Definition policies : list policy := [
  Policy "Users can view their own profile" T_user_profiles SELECT (Some UidIsId) None;
  Policy "Users can update their own profile" T_user_profiles UPDATE (Some UidIsId) None;
  Policy "Users can view their own subscriptions" T_subscriptions SELECT (Some UidIsUserId) None;
  Policy "Users can create their own subscriptions" T_subscriptions INSERT None (Some UidIsUserId);
  Policy "Users can view their own deployments" T_deployments SELECT (Some UidIsUserId) None;
  Policy "Users can create their own deployments" T_deployments INSERT None (Some UidIsUserId);
  Policy "Users can update their own deployments" T_deployments UPDATE (Some UidIsUserId) None;
  Policy "Users can view their own deployment history" T_update_history SELECT (Some OwnsParentDeployment) None
].

(** Evaluation of a policy expression for caller [uid] on a row. A column
    the row does not have makes the comparison fail. *)
Definition eval_expr (d : db) (uid : uuid) (e : policy_expr) (r : row) : bool :=
  match e, r with
  | UidIsId, RProfile id _ => bool_decide (uid = id)
  | UidIsUserId, RSubscription _ s => bool_decide (uid = sub_user_id s)
  | UidIsUserId, RDeployment _ p => bool_decide (uid = dep_user_id p)
  | OwnsParentDeployment, RHistory _ h =>
      match uh_deployment_id h with
      | Some did =>
          match deployments d !! did with
          | Some p => bool_decide (dep_user_id p = uid)
          | None => false
          end
      | None => false
      end
  | _, _ => false
  end.

Definition eval_opt (d : db) (uid : uuid) (e : option policy_expr) (r : row) : bool :=
  match e with
  | Some e => eval_expr d uid e r
  | None => false
  end.

Definition applies (t : table) (c : command) (p : policy) : bool :=
  bool_decide (pol_table p = t) && bool_decide (pol_command p = c).

(** Row-level security is enabled on every table and all policies are
    permissive: a command passes when some policy for that table and
    command accepts the row, and with no such policy it is denied. *)
Definition rls_using (d : db) (uid : uuid) (c : command) (r : row) : bool :=
  existsb (fun p => applies (row_table r) c p && eval_opt d uid (pol_using p) r) policies.

(** The check applied to a row being written. A policy without
    [WITH CHECK] uses its [USING] expression for the written row too. *)
Definition effective_check (p : policy) : option policy_expr :=
  match pol_with_check p with
  | Some e => Some e
  | None => pol_using p
  end.

Definition rls_check (d : db) (uid : uuid) (c : command) (r : row) : bool :=
  existsb (fun p => applies (row_table r) c p && eval_opt d uid (effective_check p) r) policies.

(** Who runs a statement. The tables have row-level security [ENABLE]d,
    not [FORCE]d, so the table owner is not subject to the policies. *)
Inductive role :=
| Caller (uid : uuid)     (* an authenticated end user; auth.uid() = uid *)
| TableOwner.

Definition may_select (d : db) (who : role) (r : row) : bool :=
  match who with
  | Caller uid => rls_using d uid SELECT r
  | TableOwner => true
  end.

Definition may_insert (d : db) (who : role) (r : row) : bool :=
  match who with
  | Caller uid => rls_check d uid INSERT r
  | TableOwner => true
  end.

(** An [UPDATE] that names its row reads it, so the [SELECT] policies
    apply besides the [UPDATE] ones: to the old row, and to the new row
    so that no row is updated out of its writer's sight. *)
Definition may_update (d : db) (who : role) (old new : row) : bool :=
  match who with
  | Caller uid =>
      rls_using d uid SELECT old && rls_using d uid UPDATE old
      && rls_check d uid UPDATE new && rls_using d uid SELECT new
  | TableOwner => true
  end.

Definition may_delete (d : db) (who : role) (r : row) : bool :=
  match who with
  | Caller uid => rls_using d uid SELECT r && rls_using d uid DELETE r
  | TableOwner => true
  end.

(** *** Triggers

    [update_updated_at_column] runs [BEFORE UPDATE] on [user_profiles],
    [subscriptions] and [deployments] and overwrites [NEW.updated_at]
    with [NOW()]. There is no such trigger on [update_history]. *)

Definition touch_profile (now : timestamptz) (r : user_profile) : user_profile :=
  UserProfile (up_email r) (up_full_name r) (up_created_at r) (Some now).

Definition touch_subscription (now : timestamptz) (r : subscription) : subscription :=
  Subscription (sub_user_id r) (sub_user_email r) (sub_stripe_subscription_id r)
    (sub_plan_type r) (sub_status r) (sub_created_at r) (Some now).

Definition touch_deployment (now : timestamptz) (r : deployment) : deployment :=
  Deployment (dep_user_id r) (dep_user_email r) (dep_template_id r) (dep_droplet_id r)
    (dep_url r) (dep_status r) (dep_created_at r) (Some now) (dep_subscription_id r)
    (dep_auto_update_enabled r) (dep_update_schedule r).

(** *** Constraints *)

(** [email TEXT NOT NULL UNIQUE]: no row other than [id] carries [e]. *)
Definition email_free (d : db) (id : uuid) (e : string) : bool :=
  bool_decide (map_Forall (fun k r => k = id ∨ up_email r ≠ e) (user_profiles d)).

(** [REFERENCES t(id)] on a nullable column: [NULL] satisfies it. *)
Definition fk_opt {A} (m : gmap string A) (k : option uuid) : bool :=
  match k with
  | Some k => bool_decide (is_Some (m !! k))
  | None => true
  end.

Definition fk {A} (m : gmap string A) (k : uuid) : bool :=
  bool_decide (is_Some (m !! k)).

(** *** Referential actions

    They run with the rights of the table owner, whatever role issued
    the statement that set them off. *)

(** [ON DELETE CASCADE] from [deployments] to [update_history]: the
    entries whose parent satisfies [gone] go. *)
Definition history_survives (gone : uuid -> bool) (h : history_entry) : bool :=
  match uh_deployment_id h with
  | Some did => negb (gone did)
  | None => true
  end.

Definition cascade_history (gone : uuid -> bool) (m : gmap Z history_entry) : gmap Z history_entry :=
  filter (fun kh => history_survives gone kh.2) m.

(** [ON DELETE SET NULL] from [subscriptions] to [deployments]: an
    update of the referencing rows, which also fires their trigger. *)
Definition detach_subscription (now : timestamptz) (gone : uuid -> bool) (p : deployment) : deployment :=
  match dep_subscription_id p with
  | Some s =>
      if gone s
      then touch_deployment now
             (Deployment (dep_user_id p) (dep_user_email p) (dep_template_id p)
                (dep_droplet_id p) (dep_url p) (dep_status p) (dep_created_at p)
                (dep_updated_at p) None (dep_auto_update_enabled p) (dep_update_schedule p))
      else p
  | None => p
  end.

Definition remove_deployment (id : uuid) (d : db) : db :=
  set_update_history (cascade_history (fun k => bool_decide (k = id)) (update_history d))
    (set_deployments (delete id (deployments d)) d).

Definition remove_subscription (now : timestamptz) (id : uuid) (d : db) : db :=
  set_deployments (detach_subscription now (fun k => bool_decide (k = id)) <$> deployments d)
    (set_subscriptions (delete id (subscriptions d)) d).

(** Deleting a profile cascades to the user's subscriptions and
    deployments, and from those on to the rows that reference them. *)
Definition owns_subscription (d : db) (uid : uuid) (k : uuid) : bool :=
  match subscriptions d !! k with
  | Some s => bool_decide (sub_user_id s = uid)
  | None => false
  end.

Definition owns_deployment (d : db) (uid : uuid) (k : uuid) : bool :=
  match deployments d !! k with
  | Some p => bool_decide (dep_user_id p = uid)
  | None => false
  end.

Definition remove_profile (now : timestamptz) (uid : uuid) (d : db) : db :=
  Db (auth_users d)
     (delete uid (user_profiles d))
     (filter (fun ks => sub_user_id ks.2 ≠ uid) (subscriptions d))
     (detach_subscription now (owns_subscription d uid)
        <$> filter (fun kp => dep_user_id kp.2 ≠ uid) (deployments d))
     (cascade_history (owns_deployment d uid) (update_history d)).

(** [user_profiles.id REFERENCES auth.users(id) ON DELETE CASCADE]. *)
Definition remove_auth_user (now : timestamptz) (uid : uuid) (d : db) : db :=
  let d' := remove_profile now uid d in
  Db (auth_users d' ∖ {[uid]}) (user_profiles d') (subscriptions d')
     (deployments d') (update_history d').

(** *** Statements

    One statement on one row, addressed by primary key. An insert
    carries the row with its defaults filled in; an update keeps the
    key and replaces the other columns. [DeleteAuthUser] is the
    identity provider removing a user from [auth.users]. *)
Inductive op :=
| InsertProfile (id : uuid) (r : user_profile)
| UpdateProfile (id : uuid) (r : user_profile)
| DeleteProfile (id : uuid)
| InsertSubscription (id : uuid) (r : subscription)
| UpdateSubscription (id : uuid) (r : subscription)
| DeleteSubscription (id : uuid)
| InsertDeployment (id : uuid) (r : deployment)
| UpdateDeployment (id : uuid) (r : deployment)
| DeleteDeployment (id : uuid)
| InsertHistory (id : Z) (r : history_entry)
| UpdateHistory (id : Z) (r : history_entry)
| DeleteHistory (id : Z)
| DeleteAuthUser (id : uuid).

(** [exec now who o d] is the database after [who] runs [o] at instant
    [now], or [None] when the statement raises an error or touches no
    row (a policy hides the row, a constraint fails); the database is
    then left as it was. *)
Definition exec (now : timestamptz) (who : role) (o : op) (d : db) : option db :=
  match o with
  | InsertProfile id r =>
      if bool_decide (user_profiles d !! id = None)
         && bool_decide (id ∈ auth_users d)
         && email_free d id (up_email r)
         && may_insert d who (RProfile id r)
      then Some (set_user_profiles (<[id := r]> (user_profiles d)) d) else None
  | UpdateProfile id r =>
      match user_profiles d !! id with
      | Some old =>
          let new := touch_profile now r in
          if email_free d id (up_email new)
             && may_update d who (RProfile id old) (RProfile id new)
          then Some (set_user_profiles (<[id := new]> (user_profiles d)) d) else None
      | None => None
      end
  | DeleteProfile id =>
      match user_profiles d !! id with
      | Some old =>
          if may_delete d who (RProfile id old) then Some (remove_profile now id d) else None
      | None => None
      end
  | InsertSubscription id r =>
      if bool_decide (subscriptions d !! id = None)
         && fk (user_profiles d) (sub_user_id r)
         && may_insert d who (RSubscription id r)
      then Some (set_subscriptions (<[id := r]> (subscriptions d)) d) else None
  | UpdateSubscription id r =>
      match subscriptions d !! id with
      | Some old =>
          let new := touch_subscription now r in
          if fk (user_profiles d) (sub_user_id new)
             && may_update d who (RSubscription id old) (RSubscription id new)
          then Some (set_subscriptions (<[id := new]> (subscriptions d)) d) else None
      | None => None
      end
  | DeleteSubscription id =>
      match subscriptions d !! id with
      | Some old =>
          if may_delete d who (RSubscription id old)
          then Some (remove_subscription now id d) else None
      | None => None
      end
  | InsertDeployment id r =>
      if bool_decide (deployments d !! id = None)
         && fk (user_profiles d) (dep_user_id r)
         && fk_opt (subscriptions d) (dep_subscription_id r)
         && may_insert d who (RDeployment id r)
      then Some (set_deployments (<[id := r]> (deployments d)) d) else None
  | UpdateDeployment id r =>
      match deployments d !! id with
      | Some old =>
          let new := touch_deployment now r in
          if fk (user_profiles d) (dep_user_id new)
             && fk_opt (subscriptions d) (dep_subscription_id new)
             && may_update d who (RDeployment id old) (RDeployment id new)
          then Some (set_deployments (<[id := new]> (deployments d)) d) else None
      | None => None
      end
  | DeleteDeployment id =>
      match deployments d !! id with
      | Some old =>
          if may_delete d who (RDeployment id old) then Some (remove_deployment id d) else None
      | None => None
      end
  | InsertHistory id r =>
      if bool_decide (update_history d !! id = None)
         && fk_opt (deployments d) (uh_deployment_id r)
         && may_insert d who (RHistory id r)
      then Some (set_update_history (<[id := r]> (update_history d)) d) else None
  | UpdateHistory id r =>
      match update_history d !! id with
      | Some old =>
          if fk_opt (deployments d) (uh_deployment_id r)
             && may_update d who (RHistory id old) (RHistory id r)
          then Some (set_update_history (<[id := r]> (update_history d)) d) else None
      | None => None
      end
  | DeleteHistory id =>
      match update_history d !! id with
      | Some old =>
          if may_delete d who (RHistory id old)
          then Some (set_update_history (delete id (update_history d)) d) else None
      | None => None
      end
  | DeleteAuthUser id =>
      match who with
      | TableOwner =>
          if bool_decide (id ∈ auth_users d) then Some (remove_auth_user now id d) else None
      | Caller _ => None
      end
  end.

(** A script: statements run one after the other, each by its own
    role, stopping at the first that fails. *)
Fixpoint exec_all (now : timestamptz) (script : list (role * op)) (d : db) : option db :=
  match script with
  | [] => Some d
  | (who, o) :: script =>
      match exec now who o d with
      | Some d' => exec_all now script d'
      | None => None
      end
  end.

(** The rows of a table that [who] gets back from a [SELECT]. *)
Definition select_subscriptions (who : role) (d : db) : gmap string subscription :=
  filter (fun ks => may_select d who (RSubscription ks.1 ks.2)) (subscriptions d).

Definition select_deployments (who : role) (d : db) : gmap string deployment :=
  filter (fun kp => may_select d who (RDeployment kp.1 kp.2)) (deployments d).

Definition select_update_history (who : role) (d : db) : gmap Z history_entry :=
  filter (fun kh => may_select d who (RHistory kh.1 kh.2)) (update_history d).

(** *** Referential integrity

    What the foreign keys of the script guarantee of every state. *)
Record consistent (d : db) : Prop := Consistent {
  profile_has_user : forall id r, user_profiles d !! id = Some r -> id ∈ auth_users d;
  subscription_has_profile :
    forall id s, subscriptions d !! id = Some s -> is_Some (user_profiles d !! sub_user_id s);
  deployment_has_profile :
    forall id p, deployments d !! id = Some p -> is_Some (user_profiles d !! dep_user_id p);
  deployment_has_subscription :
    forall id p s, deployments d !! id = Some p -> dep_subscription_id p = Some s ->
      is_Some (subscriptions d !! s);
  history_has_deployment :
    forall id h did, update_history d !! id = Some h -> uh_deployment_id h = Some did ->
      is_Some (deployments d !! did)
}.

(** [UPDATE deployments SET status = st WHERE id = ..] replaces one
    column of the row. *)
Definition with_status (st : option string) (p : deployment) : deployment :=
  Deployment (dep_user_id p) (dep_user_email p) (dep_template_id p) (dep_droplet_id p)
    (dep_url p) st (dep_created_at p) (dep_updated_at p) (dep_subscription_id p)
    (dep_auto_update_enabled p) (dep_update_schedule p).

(** [UPDATE subscriptions SET status = st WHERE id = ..]. *)
Definition with_sub_status (st : string) (s : subscription) : subscription :=
  Subscription (sub_user_id s) (sub_user_email s) (sub_stripe_subscription_id s)
    (sub_plan_type s) st (sub_created_at s) (sub_updated_at s).

End Schema.

(** ** The status machine of the specification *)

Module StatusMachine.

(** Modelled from the spec: the sources hold no enumeration of the
    values of [Deployment.status] (the column is [TEXT]); these are the
    five values of section 3. *)
Definition status_values : list string :=
  ["pending"; "deploying"; "running"; "stopped"; "failed"].

(** Modelled from the spec: the code that moves a deployment from one
    status to the next (the backend's poller or webhook handler) is not
    among the sources; these are the edges of section 4.4. *)
Definition status_edges : list (string * string) :=
  [("pending", "deploying"); ("deploying", "running"); ("deploying", "failed");
   ("running", "stopped"); ("running", "failed")].

(** Membership in the two lists; [NULL] is no status and has no edge. *)
Definition is_status (st : option string) : bool :=
  match st with
  | Some a => bool_decide (a ∈ status_values)
  | None => false
  end.

Definition is_edge (old new : option string) : bool :=
  match old, new with
  | Some a, Some b => bool_decide ((a, b) ∈ status_edges)
  | _, _ => false
  end.

End StatusMachine.

(** ** The footprint of a statement on a table *)

Module Footprint.
Import Schema.

(** What a statement that went through did to [update_history]. *)
Inductive history_change (who : role) (o : op) (m m' : gmap Z history_entry) : Prop :=
| hc_none : m' = m -> history_change who o m m'
| hc_cascade gone :
    who = TableOwner -> m' = cascade_history gone m ->
    (forall id, o = DeleteDeployment id -> gone = fun k => bool_decide (k = id)) ->
    (forall id h, o ≠ InsertHistory id h ∧ o ≠ UpdateHistory id h ∧ o ≠ DeleteHistory id) ->
    history_change who o m m'
| hc_insert id h :
    who = TableOwner -> o = InsertHistory id h -> m !! id = None -> m' = <[id := h]> m ->
    history_change who o m m'
| hc_update id h :
    who = TableOwner -> o = UpdateHistory id h -> is_Some (m !! id) -> m' = <[id := h]> m ->
    history_change who o m m'
| hc_delete id :
    who = TableOwner -> o = DeleteHistory id -> m' = delete id m ->
    history_change who o m m'.

(** What a statement that went through did to [subscriptions]. *)
Inductive subscription_change (now : Z) (who : role) (o : op)
    (m m' : gmap string subscription) : Prop :=
| sc_none : m' = m -> subscription_change now who o m m'
| sc_insert id s :
    o = InsertSubscription id s -> m !! id = None -> m' = <[id := s]> m ->
    subscription_change now who o m m'
| sc_update id s :
    who = TableOwner -> o = UpdateSubscription id s -> is_Some (m !! id) ->
    m' = <[id := touch_subscription now s]> m ->
    subscription_change now who o m m'
| sc_delete id :
    who = TableOwner -> o = DeleteSubscription id -> m' = delete id m ->
    subscription_change now who o m m'
| sc_cascade uid :
    who = TableOwner -> o = DeleteProfile uid ∨ o = DeleteAuthUser uid ->
    m' = filter (fun ks => sub_user_id ks.2 ≠ uid) m ->
    subscription_change now who o m m'.

End Footprint.

(** ** The backend's deploy operation *)

Module Backend.
Import Schema.

Inductive deploy_error :=
| Unauthenticated
| ProvisioningFailed.

(** What the infrastructure provider returns for a provisioning request
    it accepted. *)
Record provisioned := Provisioned {
  resource_reference : string;
  resource_url : string
}.

Record principal := Principal { principal_id : uuid; principal_email : string }.

(** Modelled from the spec: the backend that serves [POST /deploy]
    ([main:app] in [backend/render.yaml]) is not among the sources. The
    contract of section 4.3 is followed: the provisioning request is
    forwarded to the infrastructure provider; on success a Deployment row
    with status [deploying] and the returned reference and URL is
    persisted and its id and URL are returned; on provider failure the
    operation fails with [ProvisioningFailed] and persists nothing. An
    unauthenticated caller is refused before anything else happens.
    [provider] is the answer of the infrastructure provider and [fresh]
    the identifier the store generates for the new row. *)
Definition deploy (provider : string -> option provisioned) (now : timestamptz)
    (fresh : uuid) (caller : option principal) (templateSelector paymentMethodToken : string)
    (d : db) : db * (deploy_error + (uuid * string)) :=
  match caller with
  | None => (d, inl Unauthenticated)
  | Some who =>
      match provider templateSelector with
      | None => (d, inl ProvisioningFailed)
      | Some r =>
          let new :=
            Deployment (principal_id who) (principal_email who) templateSelector
              (Some (resource_reference r)) (Some (resource_url r)) (Some "deploying")
              (Some now) (Some now) None (Some false) None in
          (set_deployments (<[fresh := new]> (deployments d)) d, inr (fresh, resource_url r))
      end
  end.

End Backend.

(** ** JavaScript values as the dashboard handles them *)

Module Js.

(** Values that [response.json()] can produce, and [undefined]. The
    pages never compute with a number, they only print it, so a number
    is kept as the text [String(n)] gives for it ([42], [0.5], [1e+21]).
    An object is the list of its own properties, each key once. *)
Inductive value :=
| VUndefined
| VNull
| VBool (b : bool)
| VNum (text : string)
| VStr (s : string)
| VArr (l : list value)
| VObj (fields : list (string * value)).

Definition join (sep : string) (l : list string) : string :=
  match l with
  | [] => ""
  | x :: l => fold_left (fun acc y => acc +:+ sep +:+ y) l x
  end.

(** [String(v)], the conversion a template literal applies. *)
Fixpoint to_string (v : value) : string :=
  match v with
  | VUndefined => "undefined"
  | VNull => "null"
  | VBool true => "true"
  | VBool false => "false"
  | VNum text => text
  | VStr s => s
  | VArr l =>
      join "," (map (fun x => match x with
                              | VUndefined | VNull => ""
                              | _ => to_string x
                              end) l)
  | VObj _ => "[object Object]"
  end.

(** A thrown [Error]; only [message] is ever read. *)
Record error := Error { message : string }.

Fixpoint lookup_field (k : string) (fields : list (string * value)) : value :=
  match fields with
  | [] => VUndefined
  | (k', v) :: fields => if bool_decide (k' = k) then v else lookup_field k fields
  end.

(** [v.k] for a key that no built-in prototype defines: a [TypeError] on
    [null] and [undefined], the property of an object, [undefined]
    otherwise. The message of the [TypeError] is the one V8 (Chrome,
    Node) words; other engines word it differently. *)
Definition get (v : value) (k : string) : error + value :=
  match v with
  | VUndefined => inl (Error ("Cannot read properties of undefined (reading '" +:+ k +:+ "')"))
  | VNull => inl (Error ("Cannot read properties of null (reading '" +:+ k +:+ "')"))
  | VObj fields => inr (lookup_field k fields)
  | _ => inr VUndefined
  end.

(** [`${s}`] for a value of type [string | undefined]. *)
Definition opt_to_string (s : option string) : string :=
  match s with
  | Some s => s
  | None => "undefined"
  end.

End Js.

(** ** The dashboard's effects *)

Module Browser.
Import Js.

(** The session the identity provider hands out. *)
Record session := Session { access_token : string }.

(** The signed-in user kept in component state ([null] when signed out). *)
Record user := User { user_id : string }.

(** A [fetch] call. [req_body] is the object handed to [JSON.stringify]. *)
Record request := Request {
  req_url : string;
  req_method : string;
  req_headers : list (string * string);
  req_body : value
}.

(** A [Response]: its [ok] flag and what [json()] resolves to, or the
    error it rejects with. *)
Record response := Response {
  ok : bool;
  json_body : error + value
}.

(** The effects of the click handler. *)
Inductive eff : Type -> Type :=
| Alert (msg : string) : eff unit
| SetDeploying (v : option string) : eff unit
| GetSession : eff (option session)
| ConsoleLog (label url : string) (payload : value) : eff unit
| Fetch (r : request) : eff (error + response).

(** Programs over these effects, with exceptions. *)
Inductive io (A : Type) : Type :=
| Ret (a : A)
| Throw (e : error)
| Vis {X : Type} (e : eff X) (k : X -> io A).
Arguments Ret {A} a.
Arguments Throw {A} e.
Arguments Vis {A X} e k.

Fixpoint bind {A B} (m : io A) (f : A -> io B) : io B :=
  match m with
  | Ret a => f a
  | Throw e => Throw e
  | Vis e k => Vis e (fun x => bind (k x) f)
  end.

(** [try { m } catch (error) { h error }]. *)
Fixpoint try_catch {A} (m : io A) (h : error -> io A) : io A :=
  match m with
  | Ret a => Ret a
  | Throw e => h e
  | Vis e k => Vis e (fun x => try_catch (k x) h)
  end.

(** [try { m } finally { f }]: [f] runs on both exits, and an exception
    of [m] is thrown again after it. *)
Fixpoint finally {A} (m : io A) (f : io unit) : io A :=
  match m with
  | Ret a => bind f (fun _ => Ret a)
  | Throw e => bind f (fun _ => Throw e)
  | Vis e k => Vis e (fun x => finally (k x) f)
  end.

Declare Scope io_scope.
Delimit Scope io_scope with io.
Notation "x <- m ;; k" := (bind m (fun x => k))
  (at level 100, m at next level, right associativity) : io_scope.
Notation "m ;; k" := (bind m (fun _ => k))
  (at level 100, right associativity) : io_scope.

Definition perform {X} (e : eff X) : io X := Vis e Ret.

Definition alert (msg : string) : io unit := perform (Alert msg).
Definition setDeploying (v : option string) : io unit := perform (SetDeploying v).
Definition getSession : io (option session) := perform GetSession.
Definition console_log (label url : string) (payload : value) : io unit :=
  perform (ConsoleLog label url payload).

(** [await fetch(..)]: a rejected promise is an exception. *)
Definition fetch (r : request) : io response :=
  Vis (Fetch r) (fun x => match x with inl e => Throw e | inr resp => Ret resp end).

(** [await response.json()]. *)
Definition json (r : response) : io value :=
  match json_body r with inl e => Throw e | inr v => Ret v end.

Definition lift {A} (x : error + A) : io A :=
  match x with inl e => Throw e | inr a => Ret a end.

(** What the handler does to the outside, in order. *)
Inductive event :=
| EAlert (msg : string)
| ESetDeploying (v : option string)
| EGetSession
| ELog (label url : string) (payload : value)
| EFetch (r : request).

(** The outside: the current session and the server's answer to each
    request (an error when the request does not get through). *)
Record world := World {
  w_session : option session;
  w_fetch : request -> error + response
}.

(** Running a program against a world: the events in order and how the
    program ends. *)
Fixpoint run {A} (w : world) (m : io A) : list event * (error + A) :=
  match m with
  | Ret a => ([], inr a)
  | Throw e => ([], inl e)
  | Vis e k =>
      match e in eff X return (X -> io A) -> list event * (error + A) with
      | Alert msg => fun k => let '(t, r) := run w (k tt) in (EAlert msg :: t, r)
      | SetDeploying v => fun k => let '(t, r) := run w (k tt) in (ESetDeploying v :: t, r)
      | GetSession => fun k => let '(t, r) := run w (k (w_session w)) in (EGetSession :: t, r)
      | ConsoleLog l u p => fun k => let '(t, r) := run w (k tt) in (ELog l u p :: t, r)
      | Fetch q => fun k => let '(t, r) := run w (k (w_fetch w q)) in (EFetch q :: t, r)
      end k
  end.

Definition trace {A} (w : world) (m : io A) : list event := (run w m).1.

(** The requests of a trace, in order. *)
Definition requests (t : list event) : list request :=
  omap (fun ev => match ev with EFetch r => Some r | _ => None end) t.

Definition alerts (t : list event) : list string :=
  omap (fun ev => match ev with EAlert m => Some m | _ => None end) t.

End Browser.

(** ** The templates page ([frontend/app/templates/page.tsx]) *)

Module TemplatesPage.
Import Js Browser.
Local Open Scope io_scope.

Definition subscription_url : string := "http://localhost:8000/create-subscription".
Definition deploy_url : string := "http://localhost:8000/deploy".

Definition headers (s : option session) : list (string * string) :=
  [("Content-Type", "application/json");
   ("Authorization", "Bearer " +:+ opt_to_string (access_token <$> s))].

Definition subscription_request (s : option session) (templateId tier : string) : request :=
  Request subscription_url "POST" (headers s)
    (VObj [("plan_type", VStr (templateId +:+ "-" +:+ tier));
           ("payment_method_id", VStr "pm_card_visa")]).

Definition deploy_request (s : option session) (templateId tier : string) : request :=
  Request deploy_url "POST" (headers s)
    (VObj [("template_id", VStr (templateId +:+ "-" +:+ tier));
           ("payment_method_id", VStr "pm_card_visa")]).

(** [handleDeploy(templateId, tier = 'basic')]; [u] is the [user] state of
    the component and [tier = None] an omitted argument. *)
Definition handleDeploy (u : option user) (templateId : string) (tier : option string) : io unit :=
  let tier := default "basic" tier in
  match u with
  | None => alert "Please sign in first"
  | Some _ =>
      setDeploying (Some templateId) ;;
      finally
        (try_catch
           (session <- getSession ;;
            subscriptionResponse <- fetch (subscription_request session templateId tier) ;;
            (if negb (ok subscriptionResponse)
             then Throw (Error "Failed to create subscription") else Ret tt) ;;
            subscriptionData <- json subscriptionResponse ;;
            deployResponse <- fetch (deploy_request session templateId tier) ;;
            (if negb (ok deployResponse) then Throw (Error "Failed to deploy") else Ret tt) ;;
            deployData <- json deployResponse ;;
            url <- lift (get deployData "url") ;;
            alert ("Deployment started! URL: " +:+ to_string url))
           (fun error => alert ("Error: " +:+ message error)))
        (setDeploying None)
  end.

End TemplatesPage.

(** ** The templates page configured from the environment

    The variant of the page that reads the backend address from
    [process.env.NEXT_PUBLIC_API_URL] and logs each request before
    sending it. *)

Module TemplatesPageEnv.
Import Js Browser.
Local Open Scope io_scope.

Section WithEnv.
(** [const API_URL = process.env.NEXT_PUBLIC_API_URL], [None] when unset. *)
Variable API_URL : option string.

Definition subscription_url : string := opt_to_string API_URL +:+ "/create-subscription".
Definition deploy_url : string := opt_to_string API_URL +:+ "/deploy".

Definition headers (s : option session) : list (string * string) :=
  [("Content-Type", "application/json");
   ("Authorization", "Bearer " +:+ opt_to_string (access_token <$> s))].

Definition subscriptionPayload (templateId tier : string) : value :=
  VObj [("plan_type", VStr (templateId +:+ "-" +:+ tier));
        ("payment_method_id", VStr "pm_card_visa")].

Definition deployPayload (templateId tier : string) : value :=
  VObj [("template_id", VStr (templateId +:+ "-" +:+ tier));
        ("payment_method_id", VStr "pm_card_visa")].

Definition subscription_request (s : option session) (templateId tier : string) : request :=
  Request subscription_url "POST" (headers s) (subscriptionPayload templateId tier).

Definition deploy_request (s : option session) (templateId tier : string) : request :=
  Request deploy_url "POST" (headers s) (deployPayload templateId tier).

Definition handleDeploy (u : option user) (templateId : string) (tier : option string) : io unit :=
  let tier := default "basic" tier in
  match u with
  | None => alert "Please sign in first"
  | Some _ =>
      setDeploying (Some templateId) ;;
      finally
        (try_catch
           (session <- getSession ;;
            console_log "Sending subscription request:" subscription_url
              (subscriptionPayload templateId tier) ;;
            subscriptionResponse <- fetch (subscription_request session templateId tier) ;;
            (if negb (ok subscriptionResponse)
             then Throw (Error "Failed to create subscription") else Ret tt) ;;
            subscriptionData <- json subscriptionResponse ;;
            console_log "Sending deploy request:" deploy_url (deployPayload templateId tier) ;;
            deployResponse <- fetch (deploy_request session templateId tier) ;;
            (if negb (ok deployResponse) then Throw (Error "Failed to deploy") else Ret tt) ;;
            deployData <- json deployResponse ;;
            url <- lift (get deployData "url") ;;
            alert ("Deployment started! URL: " +:+ to_string url))
           (fun error => alert ("Error: " +:+ message error)))
        (setDeploying None)
  end.

End WithEnv.
End TemplatesPageEnv.

(** ** The middleware ([frontend/middleware.ts]) *)

Module Middleware.
Import Browser.

(** A request as the middleware reads it: [req.url] is
    [origin ++ pathname ++ search] and [req.nextUrl.pathname] is
    [pathname]. *)
Record NextRequest := {
  origin : string;
  pathname : string;
  search : string
}.

Inductive NextResponse :=
| next                           (* NextResponse.next() *)
| redirect (location : string).  (* NextResponse.redirect(url) *)

(** [s.startsWith(p)]. *)
Fixpoint startsWith (s p : string) {struct p} : bool :=
  match p, s with
  | EmptyString, _ => true
  | String a p, String b s => bool_decide (a = b) && startsWith s p
  | String _ _, EmptyString => false
  end.

Definition publicRoutes : list string := ["/login"; "/signup"; "/auth/callback"].

Definition isPublicRoute (req : NextRequest) : bool :=
  existsb (fun route => startsWith (pathname req) route) publicRoutes.

(** [p] is an initial segment of [s]. *)
Definition starts_with (s p : string) : Prop := exists rest, s = p +:+ rest.

(** [new URL('/login', req.url)]: an absolute path replaces the path and
    the query of the base. *)
Definition login_url (req : NextRequest) : string := origin req +:+ "/login".

(** [middleware(req)]; [s] is the session [supabase.auth.getSession()]
    finds for the request. *)
Definition middleware (s : option session) (req : NextRequest) : NextResponse :=
  let res := next in
  if negb (bool_decide (is_Some s)) && negb (isPublicRoute req)
     && negb (bool_decide (pathname req = "/"))
  then redirect (login_url req)
  else res.

End Middleware.

(** ** The deployments page ([frontend/app/deployments/page.tsx]) *)

Module DeploymentsPage.

Record dummy := Dummy {
  id : string;
  name : string;
  template : string;
  status : string;
  url : string;
  created : string;
  plan : string
}.

Definition dummyDeployments : list dummy := [
  Dummy "1" "Notary AI Assistant" "Document Analysis" "running"
        "https://notary-ai-1.yourdomain.com" "2024-01-15" "Pro";
  Dummy "2" "Smart Document Processor" "PDF Analysis" "deploying"
        "https://doc-processor-2.yourdomain.com" "2024-01-18" "Basic";
  Dummy "3" "ID Verification System" "Identity Check" "stopped"
        "https://id-verify-3.yourdomain.com" "2024-01-20" "Enterprise"
].

(** One card of the grid: the texts and attributes that depend on the
    record. *)
Record card := Card {
  card_key : string;
  card_title : string;
  card_template : string;
  card_created : string;
  badge_class : string;
  badge_text : string;
  card_plan : string;
  link_href : string;
  link_text : string
}.

Definition badge (status : string) : string :=
  "px-3 py-1 rounded-full text-sm " +:+
  (if bool_decide (status = "running") then "bg-green-100 text-green-800"
   else if bool_decide (status = "deploying") then "bg-yellow-100 text-yellow-800"
   else "bg-red-100 text-red-800").

Definition render_card (deployment : dummy) : card :=
  Card (id deployment) (name deployment) (template deployment)
       ("Created: " +:+ created deployment) (badge (status deployment)) (status deployment)
       (plan deployment) (url deployment) (url deployment).

(** [Deployments()]: the component takes no props and reads no state;
    it maps the constant array to cards. *)
Definition Deployments : list card := map render_card dummyDeployments.

(** Dates written [YYYY-MM-DD] are ordered as their strings are. *)
Definition created_desc (l : list string) : bool :=
  bool_decide (StronglySorted (fun a b => String.leb b a = true) l).

Definition created_asc (l : list string) : bool :=
  bool_decide (StronglySorted (fun a b => String.ltb a b = true) l).

End DeploymentsPage.

(** ** Sample data *)

Module Examples.
Import Schema.

Definition alice_profile : user_profile := UserProfile "alice@example.com" None None None.
Definition bob_profile : user_profile := UserProfile "bob@example.com" None None None.

(** Two users known to the identity provider, nothing else. *)
Definition seed : db := Db {["alice"; "bob"]} ∅ ∅ ∅ ∅.

Definition canceled_subscription : subscription :=
  Subscription "alice" "alice@example.com" "sub_1" "notary-assistant-basic" "canceled" None None.

Definition bob_subscription : subscription :=
  Subscription "bob" "bob@example.com" "sub_2" "notary-assistant-pro" "active" None None.

Definition deployment_with (owner email : string) (st : option string) (sub : option string)
    : deployment :=
  Deployment owner email "notary-assistant-basic" (Some "droplet-1")
    (Some "https://notary.example.com") st None None sub (Some false) None.

Definition alice_deployment : deployment :=
  deployment_with "alice" "alice@example.com" (Some "failed") (Some "s1").

Definition bob_deployment : deployment :=
  deployment_with "bob" "bob@example.com" (Some "running") (Some "s2").

Definition stray_entry : history_entry := HistoryEntry None None (Some "{}").
Definition alice_entry : history_entry := HistoryEntry (Some "d1") None (Some "{}").

(** Profiles created by the table owner, then each user's own
    subscription and deployment inserted by that user. *)
Definition setup : list (role * op) := [
  (TableOwner, InsertProfile "alice" alice_profile);
  (TableOwner, InsertProfile "bob" bob_profile);
  (Caller "alice", InsertSubscription "s1" canceled_subscription);
  (Caller "bob", InsertSubscription "s2" bob_subscription);
  (Caller "alice", InsertDeployment "d1" alice_deployment);
  (Caller "bob", InsertDeployment "d2" bob_deployment);
  (TableOwner, InsertHistory 1 alice_entry)
].

Definition populated : db :=
  Db {["alice"; "bob"]}
     {["alice" := alice_profile; "bob" := bob_profile]}
     {["s1" := canceled_subscription; "s2" := bob_subscription]}
     {["d1" := alice_deployment; "d2" := bob_deployment]}
     {[1 := alice_entry]}.

(** A server that turns the subscription down, and one that accepts
    whatever it is sent. *)
Definition declining : Browser.world :=
  Browser.World (Some (Browser.Session "token"))
    (fun _ => inr (Browser.Response false (inr Js.VNull))).

Definition accepting : Browser.world :=
  Browser.World (Some (Browser.Session "token"))
    (fun _ => inr (Browser.Response true
                     (inr (Js.VObj [("url", Js.VStr "https://notary.example.com");
                                    ("status", Js.VStr "deploying")])))).

Definition signed_in : Browser.user := Browser.User "alice".

End Examples.

(** ** More of the schema: uniqueness and profile reads *)

Module Constraints.
Import Schema.

(** [email TEXT NOT NULL UNIQUE], as a property of a state. *)
Definition emails_unique (d : db) : Prop :=
  forall i j r r',
    user_profiles d !! i = Some r -> user_profiles d !! j = Some r' ->
    up_email r = up_email r' -> i = j.

(** The state that differs from [d] in one column of one row: the
    [status] of subscription [s], which is [st] here. *)
Definition restatus (s : uuid) (st : string) (d : db) : db :=
  set_subscriptions (alter (with_sub_status st) s (subscriptions d)) d.

(** The profiles that [who] gets back from a [SELECT]. *)
Definition select_user_profiles (who : role) (d : db) : gmap string user_profile :=
  filter (fun kr => may_select d who (RProfile kr.1 kr.2)) (user_profiles d).

End Constraints.

(** ** Programs over any set of effects *)

Module Prog.
Import Js.

(** The shape of [Browser.io] for an arbitrary effect signature [E]. *)
Inductive prog (E : Type -> Type) (A : Type) : Type :=
| Ret (a : A)
| Throw (e : error)
| Vis {X : Type} (e : E X) (k : X -> prog E A).
Arguments Ret {E A} a.
Arguments Throw {E A} e.
Arguments Vis {E A X} e k.

Fixpoint bind {E A B} (m : prog E A) (f : A -> prog E B) : prog E B :=
  match m with
  | Ret a => f a
  | Throw e => Throw e
  | Vis e k => Vis e (fun x => bind (k x) f)
  end.

(** [try { m } catch (error) { h error }], and a promise chain ending in
    [.catch(h)]. *)
Fixpoint try_catch {E A} (m : prog E A) (h : error -> prog E A) : prog E A :=
  match m with
  | Ret a => Ret a
  | Throw e => h e
  | Vis e k => Vis e (fun x => try_catch (k x) h)
  end.

(** [try { m } finally { f }]. *)
Fixpoint finally {E A} (m : prog E A) (f : prog E unit) : prog E A :=
  match m with
  | Ret a => bind f (fun _ => Ret a)
  | Throw e => bind f (fun _ => Throw e)
  | Vis e k => Vis e (fun x => finally (k x) f)
  end.

Definition perform {E : Type -> Type} {X : Type} (e : E X) : prog E X := Vis e Ret.

(** An awaited promise: a rejection is an exception. *)
Definition await {E : Type -> Type} {A : Type} (e : E (error + A)%type) : prog E A :=
  Vis e (fun x => match x with inl err => Throw err | inr a => Ret a end).

Definition lift {E : Type -> Type} {A : Type} (x : error + A) : prog E A :=
  match x with inl e => Throw e | inr a => Ret a end.

(** Running a program: [answer] is what the outside replies to each
    effect, [log] how an effect is written down. *)
Fixpoint run {E : Type -> Type} {A Ev : Type}
    (answer : forall X, E X -> X) (log : forall X, E X -> Ev)
    (m : prog E A) : list Ev * (error + A) :=
  match m with
  | Ret a => ([], inr a)
  | Throw e => ([], inl e)
  | Vis e k => let '(t, r) := run answer log (k (answer _ e)) in (log _ e :: t, r)
  end.

Declare Scope prog_scope.
Delimit Scope prog_scope with prog.
Notation "x <- m ;; k" := (bind m (fun x => k))
  (at level 100, m at next level, right associativity) : prog_scope.
Notation "m ;; k" := (bind m (fun _ => k))
  (at level 100, right associativity) : prog_scope.

End Prog.

(** ** The login page

    The page with the sign-in form ([handleSignIn]). *)

Module LoginPage.
Import Js Prog.
Local Open Scope prog_scope.

Inductive eff : Type -> Type :=
| PreventDefault : eff unit
| SetLoading (b : bool) : eff unit
| SetMessage (s : string) : eff unit
(* resolves to [{ error }], [error] being [null] on success *)
| SignInWithPassword (email password : string) : eff (error + option error)
| RouterPush (path : string) : eff unit.

(** [handleSignIn(e)]; [email] and [password] are the state of the two
    inputs. *)
Definition handleSignIn (email password : string) : prog eff unit :=
  perform PreventDefault ;;
  perform (SetLoading true) ;;
  perform (SetMessage "") ;;
  finally
    (try_catch
       (error <- await (SignInWithPassword email password) ;;
        (match error with Some error => Throw error | None => Ret tt end) ;;
        perform (RouterPush "/dashboard"))
       (fun error => perform (SetMessage ("Error: " +:+ message error))))
    (perform (SetLoading false)).

Inductive event :=
| EPreventDefault
| ESetLoading (b : bool)
| ESetMessage (s : string)
| ESignIn (email password : string)
| EPush (path : string).

Definition log (X : Type) (e : eff X) : event :=
  match e with
  | PreventDefault => EPreventDefault
  | SetLoading b => ESetLoading b
  | SetMessage s => ESetMessage s
  | SignInWithPassword email password => ESignIn email password
  | RouterPush path => EPush path
  end.

(** The identity provider's verdict on a pair of credentials. *)
Definition answer (verdict : string -> string -> error + option error)
    (X : Type) (e : eff X) : X :=
  match e in eff X return X with
  | PreventDefault => tt
  | SetLoading _ => tt
  | SetMessage _ => tt
  | SignInWithPassword email password => verdict email password
  | RouterPush _ => tt
  end.

Definition navigations (t : list event) : list string :=
  omap (fun ev => match ev with EPush p => Some p | _ => None end) t.

Definition messages (t : list event) : list string :=
  omap (fun ev => match ev with ESetMessage m => Some m | _ => None end) t.

Definition loading_updates (t : list event) : list bool :=
  omap (fun ev => match ev with ESetLoading b => Some b | _ => None end) t.

End LoginPage.

(** ** Loading the templates page

    The effect both versions of the templates page run on mount: two
    promise chains, started one after the other and not awaited. *)

Module TemplatesLoad.
Import Js Browser Prog.
Local Open Scope prog_scope.

Inductive eff : Type -> Type :=
(* resolves to [{ data: { user } }], [user] being [null] when signed out *)
| GetUser : eff (error + option user)
| SetUser (u : option user) : eff unit
| Fetch (r : request) : eff (error + response)
| SetTemplates (v : value) : eff unit
| SetLoading (b : bool) : eff unit
| ConsoleError (label : string) (err : error) : eff unit.

(** [fetch(url)]: a [GET] without headers or body. *)
Definition templates_request (url : string) : request := Request url "GET" [] VUndefined.

Definition templates_url : string := "http://localhost:8000/templates".
Definition templates_url_env (API_URL : option string) : string :=
  opt_to_string API_URL +:+ "/templates".

(** [supabase.auth.getUser().then(({ data: { user } }) => setUser(user))];
    there is no [.catch], a rejection stays unhandled. *)
Definition load_user : prog eff unit :=
  user <- await GetUser ;;
  perform (SetUser user).

(** [fetch(url).then(res => res.json()).then(data => { .. }).catch(err => { .. })]. *)
Definition load_templates (url : string) : prog eff unit :=
  try_catch
    (res <- await (Fetch (templates_request url)) ;;
     data <- lift (json_body res) ;;
     templates <- lift (get data "templates") ;;
     perform (SetTemplates templates) ;;
     perform (SetLoading false))
    (fun err =>
       perform (ConsoleError "Error fetching templates:" err) ;;
       perform (SetLoading false)).

Inductive event :=
| EGetUser
| ESetUser (u : option user)
| EFetch (r : request)
| ESetTemplates (v : value)
| ESetLoading (b : bool)
| EConsoleError (label : string) (err : error).

Definition log (X : Type) (e : eff X) : event :=
  match e with
  | GetUser => EGetUser
  | SetUser u => ESetUser u
  | Fetch r => EFetch r
  | SetTemplates v => ESetTemplates v
  | SetLoading b => ESetLoading b
  | ConsoleError l err => EConsoleError l err
  end.

Definition answer (who : error + option user) (server : request -> error + response)
    (X : Type) (e : eff X) : X :=
  match e in eff X return X with
  | GetUser => who
  | SetUser _ => tt
  | Fetch r => server r
  | SetTemplates _ => tt
  | SetLoading _ => tt
  | ConsoleError _ _ => tt
  end.

End TemplatesLoad.

(** ** The deploy buttons of the templates page *)

Module TemplatesView.
Import Js Browser.

(** [disabled={!user || deploying === id}] on the button of template
    [id], whatever its tier. *)
Definition button_disabled (u : option user) (deploying : option string) (id : string) : bool :=
  negb (bool_decide (is_Some u)) || bool_decide (deploying = Some id).

(** The successive values of the [deploying] state in a trace. *)
Definition deploying_updates (t : list event) : list (option string) :=
  omap (fun ev => match ev with ESetDeploying v => Some v | _ => None end) t.

(** A trace without its [console.log] lines. *)
Definition is_log (ev : event) : bool :=
  match ev with ELog _ _ _ => true | _ => false end.

Definition without_logs (t : list event) : list event :=
  filter (fun ev => negb (is_log ev)) t.

(** The request the environment-configured page sends where the plain
    page sends [r]: the same request to the configured base address. *)
Definition rebase (API_URL : option string) (r : request) : request :=
  Request
    (if bool_decide (req_url r = TemplatesPage.subscription_url)
     then TemplatesPageEnv.subscription_url API_URL
     else if bool_decide (req_url r = TemplatesPage.deploy_url)
          then TemplatesPageEnv.deploy_url API_URL
          else req_url r)
    (req_method r) (req_headers r) (req_body r).

Definition rebase_event (API_URL : option string) (ev : event) : event :=
  match ev with
  | EFetch r => EFetch (rebase API_URL r)
  | _ => ev
  end.

End TemplatesView.

(** ** More sample data *)

Module MoreExamples.
Import Js Browser.

(** A server that creates the subscription and then refuses to deploy. *)
Definition deploy_refused : world :=
  World (Some (Session "token"))
    (fun r => inr (Response (bool_decide (req_url r = TemplatesPage.subscription_url))
                     (inr (VObj [])))).

(** A server whose answers are fine but carry no [url]. *)
Definition no_url : world :=
  World None (fun _ => inr (Response true (inr (VObj [("status", VStr "deploying")])))).

(** A network that is down. *)
Definition offline : world :=
  World (Some (Session "token")) (fun _ => inl (Error "Failed to fetch")).

End MoreExamples.

(** * Properties *)

(** ** What the policies amount to, table by table *)

Module Rls.
Import Schema.

Lemma using_subscription d c cmd id s :
  rls_using d c cmd (RSubscription id s) =
  match cmd with SELECT => bool_decide (c = sub_user_id s) | _ => false end.
Proof. destruct cmd; cbn; by rewrite ?orb_false_r. Qed.

Lemma check_subscription d c cmd id s :
  rls_check d c cmd (RSubscription id s) =
  match cmd with
  | SELECT | INSERT => bool_decide (c = sub_user_id s)
  | _ => false
  end.
Proof. destruct cmd; cbn; by rewrite ?orb_false_r. Qed.

Lemma using_deployment d c cmd id p :
  rls_using d c cmd (RDeployment id p) =
  match cmd with
  | SELECT | UPDATE => bool_decide (c = dep_user_id p)
  | _ => false
  end.
Proof. destruct cmd; cbn; by rewrite ?orb_false_r. Qed.

Lemma check_deployment d c cmd id p :
  rls_check d c cmd (RDeployment id p) =
  match cmd with
  | DELETE => false
  | _ => bool_decide (c = dep_user_id p)
  end.
Proof. destruct cmd; cbn; by rewrite ?orb_false_r. Qed.

Lemma using_history d c cmd id h :
  rls_using d c cmd (RHistory id h) =
  match cmd with
  | SELECT => eval_expr d c OwnsParentDeployment (RHistory id h)
  | _ => false
  end.
Proof. destruct cmd; cbn; by rewrite ?orb_false_r. Qed.

Lemma check_history d c cmd id h :
  rls_check d c cmd (RHistory id h) =
  match cmd with
  | SELECT => eval_expr d c OwnsParentDeployment (RHistory id h)
  | _ => false
  end.
Proof. destruct cmd; cbn; by rewrite ?orb_false_r. Qed.

Lemma using_profile d c cmd id r :
  rls_using d c cmd (RProfile id r) =
  match cmd with
  | SELECT | UPDATE => bool_decide (c = id)
  | _ => false
  end.
Proof. destruct cmd; cbn; by rewrite ?orb_false_r. Qed.

End Rls.

(** ** Owners are isolated from each other *)

Module Isolation.
Import Schema.

Ltac rls :=
  rewrite ?Rls.using_subscription, ?Rls.check_subscription, ?Rls.using_deployment,
    ?Rls.check_deployment, ?Rls.using_history, ?Rls.check_history, ?Rls.using_profile.

Lemma foreign_subscription_hidden d c id s :
  sub_user_id s ≠ c -> may_select d (Caller c) (RSubscription id s) = false.
Proof. intros Hne. cbn -[rls_using]. rls. by rewrite bool_decide_eq_false. Qed.

Lemma foreign_deployment_hidden d c id p :
  dep_user_id p ≠ c -> may_select d (Caller c) (RDeployment id p) = false.
Proof. intros Hne. cbn -[rls_using]. rls. by rewrite bool_decide_eq_false. Qed.

Lemma subscription_update_denied d c old new :
  row_table old = T_subscriptions -> may_update d (Caller c) old new = false.
Proof.
  destruct old; try discriminate. intros _. cbn -[rls_using rls_check]. rls.
  by rewrite andb_false_r.
Qed.

Lemma subscription_delete_denied d c id s :
  may_delete d (Caller c) (RSubscription id s) = false.
Proof. cbn -[rls_using]. rls. by rewrite andb_false_r. Qed.

Lemma deployment_delete_denied d c id p :
  may_delete d (Caller c) (RDeployment id p) = false.
Proof. cbn -[rls_using]. rls. by rewrite andb_false_r. Qed.

Lemma foreign_deployment_update_denied d c id p new :
  dep_user_id p ≠ c -> may_update d (Caller c) (RDeployment id p) new = false.
Proof.
  intros Hne. cbn -[rls_using rls_check]. rls.
  by rewrite (bool_decide_eq_false_2 (c = dep_user_id p)).
Qed.

Lemma foreign_insert_denied d c r o :
  match r with
  | RSubscription _ s => sub_user_id s = o
  | RDeployment _ p => dep_user_id p = o
  | _ => False
  end ->
  o ≠ c -> may_insert d (Caller c) r = false.
Proof.
  destruct r; try done; intros <- Hne; cbn -[rls_check]; rls;
    by rewrite bool_decide_eq_false.
Qed.

(** C4. A caller [c] gets nothing done on a Subscription or Deployment
    row owned by somebody else: the row is not among those a [SELECT]
    returns, an [UPDATE] or [DELETE] of it is refused, and so is the
    [INSERT] of a row that names another owner. Every policy on the two
    tables tests [auth.uid() = user_id] and nothing else. *)
Theorem rls_scopes_rows_to_their_owner (now : Z) (d : db) (c : string) (id : string) :
  (forall s, subscriptions d !! id = Some s -> sub_user_id s ≠ c ->
     select_subscriptions (Caller c) d !! id = None
     ∧ (forall s', exec now (Caller c) (UpdateSubscription id s') d = None)
     ∧ exec now (Caller c) (DeleteSubscription id) d = None)
  ∧ (forall s, sub_user_id s ≠ c -> exec now (Caller c) (InsertSubscription id s) d = None)
  ∧ (forall p, deployments d !! id = Some p -> dep_user_id p ≠ c ->
     select_deployments (Caller c) d !! id = None
     ∧ (forall p', exec now (Caller c) (UpdateDeployment id p') d = None)
     ∧ exec now (Caller c) (DeleteDeployment id) d = None)
  ∧ (forall p, dep_user_id p ≠ c -> exec now (Caller c) (InsertDeployment id p) d = None)
  ∧ Forall (fun pol =>
       pol_table pol = T_subscriptions ∨ pol_table pol = T_deployments ->
       effective_check pol = Some UidIsUserId) policies.
Proof.
  split_and!.
  - intros s Hs Hne. split_and!.
    + unfold select_subscriptions. apply map_lookup_filter_None_2. right.
      intros s' Hs'. cbn [fst snd]. assert (s' = s) as -> by congruence.
      rewrite foreign_subscription_hidden by done. by intros [].
    + intros s'. cbn -[may_update]. rewrite Hs.
      rewrite subscription_update_denied by done. by rewrite andb_false_r.
    + cbn -[may_delete]. rewrite Hs. by rewrite subscription_delete_denied.
  - intros s Hne. cbn -[may_insert].
    rewrite (foreign_insert_denied d c (RSubscription id s) (sub_user_id s)) by done.
    by rewrite andb_false_r.
  - intros p Hp Hne. split_and!.
    + unfold select_deployments. apply map_lookup_filter_None_2. right.
      intros p' Hp'. cbn [fst snd]. assert (p' = p) as -> by congruence.
      rewrite foreign_deployment_hidden by done. by intros [].
    + intros p'. cbn -[may_update]. rewrite Hp.
      rewrite foreign_deployment_update_denied by done. by rewrite andb_false_r.
    + cbn -[may_delete]. rewrite Hp. by rewrite deployment_delete_denied.
  - intros p Hne. cbn -[may_insert].
    rewrite (foreign_insert_denied d c (RDeployment id p) (dep_user_id p)) by done.
    by rewrite andb_false_r.
  - repeat constructor; cbn; intros [?|?]; done.
Qed.

Lemma rls_scopes_rows_to_their_owner_witness :
  subscriptions Examples.populated !! "s2" = Some Examples.bob_subscription
  ∧ sub_user_id Examples.bob_subscription ≠ "alice"
  ∧ select_subscriptions (Caller "alice") Examples.populated !! "s2" = None
  ∧ exec 0 (Caller "alice")
      (UpdateSubscription "s2" (with_sub_status "canceled" Examples.bob_subscription))
      Examples.populated = None
  ∧ select_deployments (Caller "alice") Examples.populated !! "d2" = None
  ∧ exec 0 (Caller "alice")
      (UpdateDeployment "d2" (with_status (Some "stopped") Examples.bob_deployment))
      Examples.populated = None.
Proof.
  destruct (rls_scopes_rows_to_their_owner 0 Examples.populated "alice" "s2")
    as (Hsub & _ & _ & _ & _).
  destruct (rls_scopes_rows_to_their_owner 0 Examples.populated "alice" "d2")
    as (_ & _ & Hdep & _ & _).
  destruct (Hsub Examples.bob_subscription eq_refl) as (Hs1 & Hs2 & _); [done|].
  destruct (Hdep Examples.bob_deployment eq_refl) as (Hd1 & Hd2 & _); [done|].
  split_and!; [reflexivity | done | exact Hs1 | apply Hs2 | exact Hd1 | apply Hd2].
Defined.

End Isolation.

(** ** The foreign keys hold in every state *)

Module Integrity.
Import Schema.

Lemma cascade_history_lookup gone (m : gmap Z history_entry) k h :
  cascade_history gone m !! k = Some h <-> m !! k = Some h ∧ history_survives gone h = true.
Proof.
  unfold cascade_history. rewrite map_lookup_filter_Some. cbn.
  by rewrite Is_true_true.
Qed.

Lemma detach_keeps_owner now gone p :
  dep_user_id (detach_subscription now gone p) = dep_user_id p.
Proof. unfold detach_subscription. by repeat case_match. Qed.

Lemma detach_keeps_status now gone p :
  dep_status (detach_subscription now gone p) = dep_status p.
Proof. unfold detach_subscription. by repeat case_match. Qed.

Lemma detach_reference now gone p s :
  dep_subscription_id (detach_subscription now gone p) = Some s ->
  dep_subscription_id p = Some s ∧ gone s = false.
Proof.
  unfold detach_subscription. destruct (dep_subscription_id p) as [s'|] eqn:E; [|by rewrite E].
  destruct (gone s') eqn:G; cbn; [done|]. rewrite E. by intros [= ->].
Qed.

(** Splitting the guard of a statement into its conjuncts. *)
Ltac guards :=
  repeat match goal with
         | G : _ && _ = true |- _ => apply andb_prop in G as [? ?]
         end;
  repeat match goal with
         | G : bool_decide _ = true |- _ => apply bool_decide_eq_true_1 in G
         | G : fk _ _ = true |- _ => apply bool_decide_eq_true_1 in G
         end.

(** Inverting a statement that went through. *)
Ltac run_exec H :=
  cbn -[may_insert may_update may_delete remove_profile remove_subscription
        remove_deployment remove_auth_user email_free] in H;
  repeat match type of H with
         | match ?x with _ => _ end = Some _ =>
             let E := fresh "E" in destruct x eqn:E; try discriminate H
         end;
  try (injection H as <-); guards.

Lemma fk_opt_spec {A} (m : gmap string A) k s :
  fk_opt m k = true -> k = Some s -> is_Some (m !! s).
Proof. intros H ->. by apply bool_decide_eq_true_1 in H. Qed.

Lemma remove_profile_consistent now uid d :
  consistent d -> consistent (remove_profile now uid d).
Proof.
  intros [Hu Hs Hp Hps Hh]. split; cbn.
  - intros id r Hr. apply lookup_delete_Some in Hr as [_ Hr]. eauto.
  - intros id s Hsub. apply map_lookup_filter_Some in Hsub as [Hsub Hne]. cbn in Hne.
    rewrite lookup_delete_ne by done. eauto.
  - intros id p Hdep. apply lookup_fmap_Some in Hdep as (p0 & <- & Hdep).
    apply map_lookup_filter_Some in Hdep as [Hdep Hne]. cbn in Hne.
    rewrite detach_keeps_owner. rewrite lookup_delete_ne by done. eauto.
  - intros id p s Hdep Href. apply lookup_fmap_Some in Hdep as (p0 & <- & Hdep).
    apply map_lookup_filter_Some in Hdep as [Hdep _].
    apply detach_reference in Href as [Href Hkeep].
    destruct (Hps _ _ _ Hdep Href) as [sub Hsub].
    exists sub. apply map_lookup_filter_Some. split; [done|]. cbn.
    unfold owns_subscription in Hkeep. rewrite Hsub in Hkeep.
    by apply bool_decide_eq_false_1 in Hkeep.
  - intros id h did Hrow Hparent. apply cascade_history_lookup in Hrow as [Hrow Hkeep].
    unfold history_survives in Hkeep. rewrite Hparent in Hkeep.
    apply negb_true_iff in Hkeep.
    destruct (Hh _ _ _ Hrow Hparent) as [p Hdep].
    exists (detach_subscription now (owns_subscription d uid) p).
    rewrite lookup_fmap. erewrite map_lookup_filter_Some_2; [done|done|]. cbn.
    unfold owns_deployment in Hkeep. rewrite Hdep in Hkeep.
    by apply bool_decide_eq_false_1 in Hkeep.
Qed.

Lemma remove_subscription_consistent now id d :
  consistent d -> consistent (remove_subscription now id d).
Proof.
  intros [Hu Hs Hp Hps Hh]. split; cbn.
  - done.
  - intros k s Hsub. apply lookup_delete_Some in Hsub as [_ Hsub]. eauto.
  - intros k p Hdep. apply lookup_fmap_Some in Hdep as (p0 & <- & Hdep).
    rewrite detach_keeps_owner. eauto.
  - intros k p s Hdep Href. apply lookup_fmap_Some in Hdep as (p0 & <- & Hdep).
    apply detach_reference in Href as [Href Hkeep].
    apply bool_decide_eq_false_1 in Hkeep.
    rewrite lookup_delete_ne by done. eauto.
  - intros k h did Hrow Hparent. rewrite lookup_fmap.
    destruct (Hh _ _ _ Hrow Hparent) as [p ->]. by eexists.
Qed.

Lemma remove_deployment_consistent id d :
  consistent d -> consistent (remove_deployment id d).
Proof.
  intros [Hu Hs Hp Hps Hh]. split; cbn; try done.
  - intros k p Hdep. apply lookup_delete_Some in Hdep as [_ Hdep]. eauto.
  - intros k p s Hdep Href. apply lookup_delete_Some in Hdep as [_ Hdep]. eauto.
  - intros k h did Hrow Hparent. apply cascade_history_lookup in Hrow as [Hrow Hkeep].
    unfold history_survives in Hkeep. rewrite Hparent in Hkeep.
    apply negb_true_iff, bool_decide_eq_false_1 in Hkeep.
    rewrite lookup_delete_ne by done. eauto.
Qed.

Lemma remove_auth_user_consistent now uid d :
  consistent d -> consistent (remove_auth_user now uid d).
Proof.
  intros Hd. pose proof (remove_profile_consistent now uid d Hd) as [Hu Hs Hp Hps Hh].
  split; try done.
  intros id r Hr. cbn in Hr |- *. apply elem_of_difference. split; [by eapply Hu|].
  apply lookup_delete_Some in Hr as [Hne _]. set_solver.
Qed.

(** Every statement the schema accepts leaves the foreign keys intact. *)
Lemma exec_consistent now who o d d' :
  consistent d -> exec now who o d = Some d' -> consistent d'.
Proof.
  intros Hd H. pose proof Hd as [Hu Hs Hp Hps Hh].
  destruct o as [id r|id r|id|id r|id r|id|id r|id r|id|id r|id r|id|id]; run_exec H.
  - split; cbn; try done.
    + intros k x [[<- <-]|[_ ?]]%lookup_insert_Some; eauto.
    + intros k x Hsub. destruct (Hs _ _ Hsub) as [y Hy].
      destruct (decide (id = sub_user_id x)) as [->|]; simplify_map_eq; eauto.
    + intros k x Hdep. destruct (Hp _ _ Hdep) as [y Hy].
      destruct (decide (id = dep_user_id x)) as [->|]; simplify_map_eq; eauto.
  - split; cbn; try done.
    + intros k x [[<- <-]|[_ ?]]%lookup_insert_Some; eauto.
    + intros k x Hsub. destruct (Hs _ _ Hsub) as [y Hy].
      destruct (decide (id = sub_user_id x)) as [->|]; simplify_map_eq; eauto.
    + intros k x Hdep. destruct (Hp _ _ Hdep) as [y Hy].
      destruct (decide (id = dep_user_id x)) as [->|]; simplify_map_eq; eauto.
  - by apply remove_profile_consistent.
  - split; cbn; try done.
    + intros k x [[<- <-]|[_ ?]]%lookup_insert_Some; eauto.
    + intros k x ref Hdep Href. destruct (Hps _ _ _ Hdep Href) as [y Hy].
      destruct (decide (id = ref)) as [->|]; simplify_map_eq; eauto.
  - split; cbn; try done.
    + intros k x [[<- <-]|[_ ?]]%lookup_insert_Some; eauto.
    + intros k x ref Hdep Href. destruct (Hps _ _ _ Hdep Href) as [y Hy].
      destruct (decide (id = ref)) as [->|]; simplify_map_eq; eauto.
  - by apply remove_subscription_consistent.
  - split; cbn; try done.
    + intros k x [[<- <-]|[_ ?]]%lookup_insert_Some; eauto.
    + intros k x ref [[<- <-]|[_ ?]]%lookup_insert_Some Href; eauto using fk_opt_spec.
    + intros k x did Hrow Hparent. destruct (Hh _ _ _ Hrow Hparent) as [y Hy].
      destruct (decide (id = did)) as [->|]; simplify_map_eq; eauto.
  - split; cbn; try done.
    + intros k x [[<- <-]|[_ ?]]%lookup_insert_Some; eauto.
    + intros k x ref [[<- <-]|[_ ?]]%lookup_insert_Some Href; eauto using fk_opt_spec.
    + intros k x did Hrow Hparent. destruct (Hh _ _ _ Hrow Hparent) as [y Hy].
      destruct (decide (id = did)) as [->|]; simplify_map_eq; eauto.
  - by apply remove_deployment_consistent.
  - split; cbn; try done.
    intros k x did [[<- <-]|[_ ?]]%lookup_insert_Some Hparent; eauto using fk_opt_spec.
  - split; cbn; try done.
    intros k x did [[<- <-]|[_ ?]]%lookup_insert_Some Hparent; eauto using fk_opt_spec.
  - split; cbn; try done.
    intros k x did [_ Hrow]%lookup_delete_Some Hparent; eauto.
  - by apply remove_auth_user_consistent.
Qed.

Lemma exec_all_consistent now script d d' :
  consistent d -> exec_all now script d = Some d' -> consistent d'.
Proof.
  revert d. induction script as [|[who o] script IH]; intros d Hd H; cbn in H.
  - by injection H as <-.
  - destruct (exec now who o d) as [d1|] eqn:E; [|done].
    eapply IH; [|done]. by eapply exec_consistent.
Qed.

End Integrity.

Module ExampleFacts.
Import Schema Examples.

Lemma seed_consistent : consistent seed.
Proof. split; cbn; intros *; by rewrite ?lookup_empty. Qed.

Lemma setup_runs : exec_all 0 setup seed = Some populated.
Proof. vm_compute. reflexivity. Qed.

Lemma populated_consistent : consistent populated.
Proof.
  eapply Integrity.exec_all_consistent;
    [apply seed_consistent | apply setup_runs].
Qed.

End ExampleFacts.

(** ** Who can change what *)

Module Changes.
Import Schema Footprint.
Import Integrity.

Lemma caller_cannot_delete d c r : may_delete d (Caller c) r = false.
Proof.
  destruct r; cbn -[rls_using]; Isolation.rls; by rewrite andb_false_r.
Qed.

Lemma caller_cannot_insert_history d c id h : may_insert d (Caller c) (RHistory id h) = false.
Proof. cbn -[rls_check]. by Isolation.rls. Qed.

Lemma caller_cannot_update_history d c id h new :
  may_update d (Caller c) (RHistory id h) new = false.
Proof. cbn -[rls_using rls_check]. Isolation.rls. by rewrite andb_false_r. Qed.

Lemma exec_history now who o d d' :
  exec now who o d = Some d' -> history_change who o (update_history d) (update_history d').
Proof.
  intros H.
  destruct o as [id r|id r|id|id r|id r|id|id r|id r|id|id r|id r|id|id]; run_exec H;
    try (by apply hc_none).
  - destruct who as [c|]; [by rewrite caller_cannot_delete in *|].
    eapply hc_cascade; [done|done|done|by intros].
  - destruct who as [c|]; [by rewrite caller_cannot_delete in *|].
    eapply hc_cascade; [done|done| |by intros]. by intros ? [= ->].
  - destruct who as [c|]; [by rewrite caller_cannot_insert_history in *|].
    by eapply hc_insert.
  - destruct who as [c|]; [by rewrite caller_cannot_update_history in *|].
    by eapply hc_update.
  - destruct who as [c|]; [by rewrite caller_cannot_delete in *|].
    by eapply hc_delete.
  - eapply hc_cascade; [done|done|done|by intros].
Qed.

Lemma exec_subscriptions now who o d d' :
  exec now who o d = Some d' ->
  subscription_change now who o (subscriptions d) (subscriptions d').
Proof.
  intros H.
  destruct o as [id r|id r|id|id r|id r|id|id r|id r|id|id r|id r|id|id]; run_exec H;
    try (by apply sc_none).
  - destruct who as [c|]; [by rewrite caller_cannot_delete in *|].
    eapply sc_cascade; [done|by left|done].
  - by eapply sc_insert.
  - destruct who as [c|]; [by rewrite Isolation.subscription_update_denied in *|].
    by eapply sc_update.
  - destruct who as [c|]; [by rewrite caller_cannot_delete in *|].
    by eapply sc_delete.
  - eapply sc_cascade; [done|by right|done].
Qed.

End Changes.

(** ** The status column *)

Module Status.
Import Schema Examples StatusMachine.
Import Integrity.

(** C6, as stated, fails on both counts: the table takes a status that
    is none of the five values, and the owner of a row moves it from
    [failed] to [running], which is no edge of the machine. *)
Lemma status_unconstrained :
  ¬ (forall now who id r d d',
       consistent d -> exec now who (InsertDeployment id r) d = Some d' ->
       is_status (dep_status r) = true)
  ∧ ¬ (forall now who id r d d' old,
       consistent d -> deployments d !! id = Some old ->
       exec now who (UpdateDeployment id r) d = Some d' ->
       dep_status r = dep_status old ∨ is_edge (dep_status old) (dep_status r) = true).
Proof.
  split; intros H.
  - pose (r := with_status (Some "paused") alice_deployment).
    specialize (H 0 (Caller "alice") "d3" r populated
                  (set_deployments (<["d3" := r]> (deployments populated)) populated)
                  ExampleFacts.populated_consistent).
    by discriminate H.
  - pose (r := with_status (Some "running") alice_deployment).
    destruct (H 7 (Caller "alice") "d1" r populated
                (set_deployments (<["d1" := touch_deployment 7 r]> (deployments populated))
                   populated)
                alice_deployment ExampleFacts.populated_consistent)
      as [Hsame|Hedge]; try done.
Qed.

(** C6 (amended). [status] is nullable free text. The owner of a
    Deployment row may set its status to any value, whatever it was
    before, and a row may be inserted under a fresh key with any status;
    the update leaves every other column but [updated_at] as it was. *)
Theorem status_is_free_text
    (now : Z) (c : string) (id fresh : string) (p : deployment) (st : option string) (d : db) :
  consistent d ->
  deployments d !! id = Some p ->
  dep_user_id p = c ->
  deployments d !! fresh = None ->
  exec now (Caller c) (UpdateDeployment id (with_status st p)) d
    = Some (set_deployments
              (<[id := touch_deployment now (with_status st p)]> (deployments d)) d)
  ∧ exec now (Caller c) (InsertDeployment fresh (with_status st p)) d
    = Some (set_deployments (<[fresh := with_status st p]> (deployments d)) d).
Proof.
  intros [_ _ Hp Hps _] Hrow Hown Hfresh.
  assert (fk (user_profiles d) (dep_user_id p) = true) as Hfk
    by (apply bool_decide_eq_true_2; eauto).
  assert (fk_opt (subscriptions d) (dep_subscription_id p) = true) as Hfko.
  { unfold fk_opt. destruct (dep_subscription_id p) eqn:E; [|done].
    apply bool_decide_eq_true_2. eauto. }
  split.
  - cbn -[rls_using rls_check]. rewrite Hrow. cbn -[rls_using rls_check].
    rewrite Hfk, Hfko. Isolation.rls. cbn.
    by rewrite !bool_decide_eq_true_2.
  - cbn -[rls_check]. rewrite Hfresh. cbn -[rls_check].
    rewrite Hfk, Hfko. Isolation.rls. cbn.
    by rewrite !bool_decide_eq_true_2.
Qed.

Lemma status_is_free_text_witness :
  dep_status <$> (deployments populated !! "d1") = Some (Some "failed")
  ∧ exec 7 (Caller "alice") (UpdateDeployment "d1" (with_status (Some "pending") alice_deployment))
      populated
    = Some (set_deployments
              (<["d1" := touch_deployment 7 (with_status (Some "pending") alice_deployment)]>
                 (deployments populated)) populated).
Proof.
  split; [reflexivity|].
  apply (status_is_free_text 7 "alice" "d1" "d3" alice_deployment (Some "pending") populated).
  - apply ExampleFacts.populated_consistent.
  - reflexivity.
  - reflexivity.
  - reflexivity.
Defined.

End Status.

(** ** The life of a subscription row *)

Module SubscriptionLife.
Import Schema Footprint Examples.
Import Integrity.

(** C7, as stated, fails: when the identity provider deletes alice, the
    cascade through [user_profiles] takes her subscription row with it. *)
Lemma subscription_cascades_away :
  ¬ (forall now who o d d' id s,
       consistent d -> subscriptions d !! id = Some s ->
       exec now who o d = Some d' -> is_Some (subscriptions d' !! id)).
Proof.
  intros H.
  destruct (H 0 TableOwner (DeleteAuthUser "alice") populated
              (remove_auth_user 0 "alice" populated) "s1" canceled_subscription
              ExampleFacts.populated_consistent eq_refl eq_refl) as [s Hs].
  vm_compute in Hs. discriminate Hs.
Qed.

(** C7 (amended). A Subscription row leaves the table only through the
    table owner: by a [DELETE] of that row, or by the cascade that
    follows the deletion of its user's profile or identity. A row that
    stays is either untouched or was replaced by an [UPDATE] of that row
    run by the table owner. In particular no statement of a caller under
    row-level security deletes or changes an existing row. *)
Theorem subscription_rows_leave_only_by_owner_or_cascade
    (now : Z) (who : role) (o : op) (d d' : db) (id : string) (s : subscription) :
  exec now who o d = Some d' ->
  subscriptions d !! id = Some s ->
  match subscriptions d' !! id with
  | None =>
      who = TableOwner
      ∧ (o = DeleteSubscription id
         ∨ o = DeleteProfile (sub_user_id s) ∨ o = DeleteAuthUser (sub_user_id s))
  | Some s' =>
      s' = s ∨ (who = TableOwner ∧ exists new, o = UpdateSubscription id new
                                         ∧ s' = touch_subscription now new)
  end.
Proof.
  intros H Hrow. apply Changes.exec_subscriptions in H.
  destruct H as [->| k x -> Hnone -> | k x -> -> _ -> | k -> -> -> | uid -> Ho ->].
  - rewrite Hrow. by left.
  - rewrite lookup_insert_ne by congruence. rewrite Hrow. by left.
  - destruct (decide (k = id)) as [->|Hne].
    + rewrite lookup_insert_eq. right. eauto.
    + rewrite lookup_insert_ne by done. rewrite Hrow. by left.
  - destruct (decide (k = id)) as [->|Hne].
    + rewrite lookup_delete_eq. auto.
    + rewrite lookup_delete_ne by done. rewrite Hrow. by left.
  - destruct (decide (sub_user_id s = uid)) as [<-|Hne].
    + rewrite (map_lookup_filter_None_2 _ _ id); [tauto|].
      right. intros x Hx. cbn. assert (x = s) as -> by congruence. tauto.
    + erewrite map_lookup_filter_Some_2; [by left|done|done].
Qed.

Lemma subscription_rows_leave_only_by_owner_or_cascade_witness :
  exec 0 TableOwner (DeleteAuthUser "alice") populated = Some (remove_auth_user 0 "alice" populated)
  ∧ subscriptions populated !! "s1" = Some canceled_subscription
  ∧ (TableOwner = TableOwner
     ∧ (DeleteAuthUser "alice" = DeleteSubscription "s1"
        ∨ DeleteAuthUser "alice" = DeleteProfile "alice"
        ∨ DeleteAuthUser "alice" = DeleteAuthUser "alice")).
Proof.
  assert (exec 0 TableOwner (DeleteAuthUser "alice") populated
          = Some (remove_auth_user 0 "alice" populated)) as Hrun by reflexivity.
  split_and!; [exact Hrun | reflexivity | | ];
    apply (subscription_rows_leave_only_by_owner_or_cascade 0 TableOwner
             (DeleteAuthUser "alice") populated _ "s1" canceled_subscription Hrun eq_refl).
Defined.

(** No caller gets a [DELETE] or an [UPDATE] on [subscriptions] through,
    and the table owner changes a status by an update that keeps the
    row. *)
Lemma subscription_statements now c id d new :
  exec now (Caller c) (DeleteSubscription id) d = None
  ∧ exec now (Caller c) (UpdateSubscription id new) d = None.
Proof.
  split; cbn -[may_delete may_update]; destruct (subscriptions d !! id) eqn:E; try done.
  - by rewrite Changes.caller_cannot_delete.
  - rewrite Isolation.subscription_update_denied by done. by rewrite andb_false_r.
Qed.

Lemma owner_sets_subscription_status now id s st d :
  consistent d -> subscriptions d !! id = Some s ->
  exec now TableOwner (UpdateSubscription id (with_sub_status st s)) d
  = Some (set_subscriptions
            (<[id := touch_subscription now (with_sub_status st s)]> (subscriptions d)) d).
Proof.
  intros [_ Hs _ _ _] Hrow. cbn. rewrite Hrow. cbn.
  unfold fk. rewrite bool_decide_eq_true_2; [done|]. eauto.
Qed.

End SubscriptionLife.

(** ** The update history *)

Module History.
Import Schema Footprint Examples.
Import Integrity.

(** C8, as stated, fails: [deployment_id] is nullable, so the table
    takes an entry that references no Deployment at all. *)
Lemma history_entry_without_parent :
  ¬ (forall now who o d d' id h,
       consistent d -> exec now who o d = Some d' ->
       update_history d' !! id = Some h ->
       exists did, uh_deployment_id h = Some did ∧ is_Some (deployments d' !! did)).
Proof.
  intros H.
  destruct (H 0 TableOwner (InsertHistory 2 stray_entry) populated
              (set_update_history (<[2 := stray_entry]> (update_history populated)) populated)
              2 stray_entry ExampleFacts.populated_consistent eq_refl eq_refl)
    as (did & Hparent & _).
  discriminate Hparent.
Qed.

(** C8 (amended). In every state that follows a consistent one:
    - an entry whose [deployment_id] is not [NULL] references an
      existing Deployment;
    - deleting a Deployment deletes exactly the entries that reference
      it;
    - a caller under row-level security leaves the table as it was;
    - an entry that is still there is unchanged unless the table owner
      ran an [UPDATE] on that very entry: no trigger and no referential
      action rewrites one. *)
Theorem history_append_only_and_cascading
    (now : Z) (who : role) (o : op) (d d' : db) :
  consistent d ->
  exec now who o d = Some d' ->
  (forall id h did, update_history d' !! id = Some h -> uh_deployment_id h = Some did ->
     is_Some (deployments d' !! did))
  ∧ (forall dep, o = DeleteDeployment dep ->
       deployments d' !! dep = None
       ∧ forall id h, update_history d' !! id = Some h <->
                      update_history d !! id = Some h ∧ uh_deployment_id h ≠ Some dep)
  ∧ (forall c, who = Caller c -> update_history d' = update_history d)
  ∧ (forall id h h', update_history d !! id = Some h -> update_history d' !! id = Some h' ->
       h' = h ∨ (who = TableOwner ∧ o = UpdateHistory id h')).
Proof.
  intros Hd H. split_and!.
  - intros id h did. eapply history_has_deployment. by eapply exec_consistent.
  - intros dep ->. run_exec H. split; [cbn; apply lookup_delete_eq|].
    intros id h. cbn. rewrite cascade_history_lookup. unfold history_survives.
    destruct (uh_deployment_id h) as [k|].
    + rewrite negb_true_iff, bool_decide_eq_false.
      split; intros [? Hne]; (split; [done|congruence]).
    + split; intros [? _]; done.
  - intros c ->. apply Changes.exec_history in H.
    by destruct H as [?| | | |].
  - intros id h h' Hrow Hrow'. apply Changes.exec_history in H.
    destruct H as [E|gone _ E _ _|k x _ _ Hnone E|k x Hwho Ho _ E|k _ _ E];
      rewrite E in Hrow'.
    + left. congruence.
    + apply cascade_history_lookup in Hrow' as [Hrow' _]. left. congruence.
    + rewrite lookup_insert_ne in Hrow' by congruence. left. congruence.
    + destruct (decide (k = id)) as [->|Hne].
      * rewrite lookup_insert_eq in Hrow'. injection Hrow' as ->. by right.
      * rewrite lookup_insert_ne in Hrow' by done. left. congruence.
    + apply lookup_delete_Some in Hrow' as [_ Hrow']. left. congruence.
Qed.

Lemma history_append_only_and_cascading_witness :
  consistent populated
  ∧ exec 0 TableOwner (DeleteDeployment "d1") populated = Some (remove_deployment "d1" populated)
  ∧ update_history populated !! 1 = Some alice_entry
  ∧ update_history (remove_deployment "d1" populated) !! 1 = None.
Proof.
  assert (exec 0 TableOwner (DeleteDeployment "d1") populated
          = Some (remove_deployment "d1" populated)) as Hrun by reflexivity.
  split_and!; [apply ExampleFacts.populated_consistent | exact Hrun | reflexivity |].
  destruct (history_append_only_and_cascading 0 TableOwner (DeleteDeployment "d1") populated _
              ExampleFacts.populated_consistent Hrun) as (_ & Hcascade & _ & _).
  destruct (Hcascade "d1" eq_refl) as [_ Hiff].
  apply eq_None_not_Some. intros [h Hh]. apply Hiff in Hh as [Hrow Hne].
  change (Some alice_entry = Some h) in Hrow. injection Hrow as <-.
  by apply Hne.
Defined.

End History.

(** ** The middleware *)

Module MiddlewareFacts.
Import Browser Middleware.

Lemma startsWith_spec s p : startsWith s p = true <-> starts_with s p.
Proof.
  unfold starts_with. revert s. induction p as [|a p IH]; intros s; cbn.
  - split; [intros _; by exists s | done].
  - destruct s as [|b s]; cbn.
    + split; [done | by intros [rest ?]].
    + rewrite andb_true_iff, bool_decide_eq_true, IH. split.
      * intros [-> [rest ->]]. by exists rest.
      * intros [rest [= -> ->]]. split; [done | by exists rest].
Qed.

Lemma isPublicRoute_spec req :
  isPublicRoute req = true <->
  starts_with (pathname req) "/login" ∨ starts_with (pathname req) "/signup"
  ∨ starts_with (pathname req) "/auth/callback".
Proof.
  unfold isPublicRoute, publicRoutes. cbn [existsb].
  rewrite !orb_true_iff, !startsWith_spec. intuition discriminate.
Qed.

(** C9. Without a session, a request for a path that starts with none of
    [/login], [/signup], [/auth/callback] and is not [/] is answered by
    a redirect to [/login] on the request's origin. Every other request
    (a session, a public route, the root path) gets the response of
    [NextResponse.next()]. *)
Theorem middleware_redirects_to_login (s : option session) (req : NextRequest) :
  (s = None ->
   ¬ starts_with (pathname req) "/login" ->
   ¬ starts_with (pathname req) "/signup" ->
   ¬ starts_with (pathname req) "/auth/callback" ->
   pathname req ≠ "/" ->
   middleware s req = redirect (origin req +:+ "/login"))
  ∧ (is_Some s
     ∨ starts_with (pathname req) "/login" ∨ starts_with (pathname req) "/signup"
     ∨ starts_with (pathname req) "/auth/callback"
     ∨ pathname req = "/" ->
     middleware s req = next).
Proof.
  unfold middleware. split.
  - intros -> H1 H2 H3 Hroot.
    rewrite (bool_decide_eq_false_2 (is_Some None)) by (by intros [? ?]).
    destruct (isPublicRoute req) eqn:E.
    { apply isPublicRoute_spec in E. tauto. }
    by rewrite bool_decide_eq_false_2.
  - intros [Hs|Hpub].
    + by rewrite bool_decide_eq_true_2.
    + destruct (bool_decide (is_Some s)); [done|].
      destruct (decide (pathname req = "/")) as [Hroot|Hroot].
      * rewrite (bool_decide_eq_true_2 _ Hroot). by rewrite andb_false_r.
      * rewrite (proj2 (isPublicRoute_spec req)); [done|]. tauto.
Qed.

Lemma middleware_redirects_to_login_witness :
  middleware None {| origin := "https://app.example.com"; pathname := "/deployments";
                     search := "" |}
    = redirect "https://app.example.com/login"
  ∧ middleware None {| origin := "https://app.example.com"; pathname := "/login";
                       search := "?next=1" |}
    = next.
Proof.
  split.
  - apply (proj1 (middleware_redirects_to_login None
                    {| origin := "https://app.example.com"; pathname := "/deployments";
                       search := "" |})); cbn; try done;
      intros [rest Hrest]; discriminate Hrest.
  - apply (proj2 (middleware_redirects_to_login None
                    {| origin := "https://app.example.com"; pathname := "/login";
                       search := "?next=1" |})).
    right. left. by exists "".
Defined.

End MiddlewareFacts.

(** ** The click handler *)

Module HandlerFacts.
Import Js Browser.

Lemma app_cancel (a x y : string) : a +:+ x = a +:+ y -> x = y.
Proof. induction a as [|c a IH]; cbn; [done|]. intros [= H]. by apply IH. Qed.

(** How a run of the handler of [frontend/app/templates/page.tsx] ends,
    by the answers the server gives. *)
Lemma page_run w u templateId tier :
  let t := default "basic" tier in
  let sq := TemplatesPage.subscription_request (w_session w) templateId t in
  let dq := TemplatesPage.deploy_request (w_session w) templateId t in
  let tr := trace w (TemplatesPage.handleDeploy (Some u) templateId tier) in
  match w_fetch w sq with
  | inl e => requests tr = [sq] ∧ alerts tr = ["Error: " +:+ message e]
  | inr resp =>
      if ok resp then
        match json_body resp with
        | inl e => requests tr = [sq] ∧ alerts tr = ["Error: " +:+ message e]
        | inr _ => requests tr = [sq; dq] ∧ length (alerts tr) = 1%nat
        end
      else requests tr = [sq] ∧ alerts tr = ["Error: Failed to create subscription"]
  end.
Proof.
  intros t sq dq tr. subst tr. unfold trace, TemplatesPage.handleDeploy.
  fold t. cbn -[TemplatesPage.subscription_request TemplatesPage.deploy_request].
  fold sq dq.
  destruct (w_fetch w sq) as [e|[o1 j1]]; [done|]. cbn -[TemplatesPage.deploy_request].
  destruct o1; [|done]. cbn -[TemplatesPage.deploy_request].
  destruct j1 as [e|v]; [done|]. cbn -[TemplatesPage.deploy_request]. fold dq.
  destruct (w_fetch w dq) as [e|[o2 j2]]; [done|]. cbn.
  destruct o2; [|done]. cbn.
  destruct j2 as [e|v2]; [done|]. cbn.
  destruct (get v2 "url"); done.
Qed.

(** The same for the handler configured from the environment. *)
Lemma env_page_run API_URL w u templateId tier :
  let t := default "basic" tier in
  let sq := TemplatesPageEnv.subscription_request API_URL (w_session w) templateId t in
  let dq := TemplatesPageEnv.deploy_request API_URL (w_session w) templateId t in
  let tr := trace w (TemplatesPageEnv.handleDeploy API_URL (Some u) templateId tier) in
  match w_fetch w sq with
  | inl e => requests tr = [sq] ∧ alerts tr = ["Error: " +:+ message e]
  | inr resp =>
      if ok resp then
        match json_body resp with
        | inl e => requests tr = [sq] ∧ alerts tr = ["Error: " +:+ message e]
        | inr _ => requests tr = [sq; dq] ∧ length (alerts tr) = 1%nat
        end
      else requests tr = [sq] ∧ alerts tr = ["Error: Failed to create subscription"]
  end.
Proof.
  intros t sq dq tr. subst tr. unfold trace, TemplatesPageEnv.handleDeploy.
  fold t. cbn -[TemplatesPageEnv.subscription_request TemplatesPageEnv.deploy_request].
  fold sq dq.
  destruct (w_fetch w sq) as [e|[o1 j1]]; [done|]. cbn -[TemplatesPageEnv.deploy_request].
  destruct o1; [|done]. cbn -[TemplatesPageEnv.deploy_request].
  destruct j1 as [e|v]; [done|]. cbn -[TemplatesPageEnv.deploy_request]. fold dq.
  destruct (w_fetch w dq) as [e|[o2 j2]]; [done|]. cbn.
  destruct o2; [|done]. cbn.
  destruct j2 as [e|v2]; [done|]. cbn.
  destruct (get v2 "url"); done.
Qed.

Lemma signed_out_run w templateId tier API_URL :
  trace w (TemplatesPage.handleDeploy None templateId tier) = [EAlert "Please sign in first"]
  ∧ trace w (TemplatesPageEnv.handleDeploy API_URL None templateId tier)
    = [EAlert "Please sign in first"].
Proof. done. Qed.

Lemma urls_differ API_URL :
  TemplatesPage.subscription_url ≠ TemplatesPage.deploy_url
  ∧ TemplatesPageEnv.subscription_url API_URL ≠ TemplatesPageEnv.deploy_url API_URL.
Proof.
  split; [done|]. unfold TemplatesPageEnv.subscription_url, TemplatesPageEnv.deploy_url.
  intros H. apply app_cancel in H. discriminate H.
Qed.

(** The shape shared by both handlers: what follows from a run that
    sent [sq] alone or [sq] and then [dq]. *)
Lemma gate (w : world) (sq dq : request) (tr : list event) :
  req_url sq ≠ req_url dq ->
  match w_fetch w sq with
  | inl e => requests tr = [sq] ∧ alerts tr = ["Error: " +:+ message e]
  | inr resp =>
      if ok resp then
        match json_body resp with
        | inl e => requests tr = [sq] ∧ alerts tr = ["Error: " +:+ message e]
        | inr _ => requests tr = [sq; dq] ∧ length (alerts tr) = 1%nat
        end
      else requests tr = [sq] ∧ alerts tr = ["Error: Failed to create subscription"]
  end ->
  (forall resp, w_fetch w sq = inr resp -> ok resp = false ->
     (forall r, r ∈ requests tr -> req_url r ≠ req_url dq)
     ∧ alerts tr = ["Error: Failed to create subscription"])
  ∧ (forall r, r ∈ requests tr -> req_url r = req_url dq ->
     exists resp, w_fetch w sq = inr resp ∧ ok resp = true ∧ requests tr = [sq; r])
  ∧ (forall r, r ∈ requests tr -> r = sq ∨ r = dq)
  ∧ (exists rest, requests tr = sq :: rest).
Proof.
  intros Hne Hrun. split_and!.
  - intros resp Hresp Hok. rewrite Hresp, Hok in Hrun. destruct Hrun as [Hreq Hal].
    split; [|done]. intros r Hr. rewrite Hreq in Hr.
    apply list_elem_of_singleton in Hr as ->. done.
  - intros r Hr Hurl.
    destruct (w_fetch w sq) as [e|resp].
    { destruct Hrun as [Hreq _]. rewrite Hreq in Hr.
      apply list_elem_of_singleton in Hr as ->. done. }
    destruct (ok resp) eqn:Hok.
    + destruct (json_body resp).
      { destruct Hrun as [Hreq _]. rewrite Hreq in Hr.
        apply list_elem_of_singleton in Hr as ->. done. }
      destruct Hrun as [Hreq _]. rewrite Hreq in Hr |- *.
      apply elem_of_cons in Hr as [->|Hr]; [done|].
      apply list_elem_of_singleton in Hr as ->. eauto.
    + destruct Hrun as [Hreq _]. rewrite Hreq in Hr.
      apply list_elem_of_singleton in Hr as ->. done.
  - intros r Hr.
    assert (requests tr = [sq] ∨ requests tr = [sq; dq]) as [E|E].
    { destruct (w_fetch w sq) as [e|resp]; [by left; apply Hrun|].
      destruct (ok resp); [|by left; apply Hrun].
      destruct (json_body resp); [by left; apply Hrun | by right; apply Hrun]. }
    + rewrite E in Hr. apply list_elem_of_singleton in Hr. by left.
    + rewrite E in Hr. apply elem_of_cons in Hr as [->|Hr]; [by left|].
      apply list_elem_of_singleton in Hr. by right.
  - destruct (w_fetch w sq) as [e|resp]; [exists []; apply Hrun|].
    destruct (ok resp); [|exists []; apply Hrun].
    destruct (json_body resp); [exists []; apply Hrun | exists [dq]; apply Hrun].
Qed.

End HandlerFacts.

Module Handler.
Import Js Browser Examples.
Import HandlerFacts.

(** C3. With a signed-in user, in both versions of the handler: when the
    answer to [POST /create-subscription] is not ok, no request to
    [/deploy] is sent and the one alert shown is
    [Error: Failed to create subscription]; and whenever a request to
    [/deploy] is sent, it is the second request, right after a
    subscription request that was answered ok. *)
Theorem deploy_request_gated_on_subscription
    (API_URL : option string) (w : world) (u : user) (templateId : string)
    (tier : option string) :
  let t := default "basic" tier in
  let s := w_session w in
  (let sq := TemplatesPage.subscription_request s templateId t in
   let tr := trace w (TemplatesPage.handleDeploy (Some u) templateId tier) in
   (forall resp, w_fetch w sq = inr resp -> ok resp = false ->
      (forall r, r ∈ requests tr -> req_url r ≠ TemplatesPage.deploy_url)
      ∧ alerts tr = ["Error: Failed to create subscription"])
   ∧ (forall r, r ∈ requests tr -> req_url r = TemplatesPage.deploy_url ->
      exists resp, w_fetch w sq = inr resp ∧ ok resp = true ∧ requests tr = [sq; r]))
  ∧ (let sq := TemplatesPageEnv.subscription_request API_URL s templateId t in
     let tr := trace w (TemplatesPageEnv.handleDeploy API_URL (Some u) templateId tier) in
     (forall resp, w_fetch w sq = inr resp -> ok resp = false ->
        (forall r, r ∈ requests tr -> req_url r ≠ TemplatesPageEnv.deploy_url API_URL)
        ∧ alerts tr = ["Error: Failed to create subscription"])
     ∧ (forall r, r ∈ requests tr -> req_url r = TemplatesPageEnv.deploy_url API_URL ->
        exists resp, w_fetch w sq = inr resp ∧ ok resp = true ∧ requests tr = [sq; r])).
Proof.
  intros t s. destruct (urls_differ API_URL) as [Hne Hne']. split.
  - intros sq tr.
    destruct (gate w sq (TemplatesPage.deploy_request s templateId t) tr Hne
                (page_run w u templateId tier)) as (Hfail & Hsent & _ & _).
    split; [exact Hfail | exact Hsent].
  - intros sq tr.
    destruct (gate w sq (TemplatesPageEnv.deploy_request API_URL s templateId t) tr Hne'
                (env_page_run API_URL w u templateId tier)) as (Hfail & Hsent & _ & _).
    split; [exact Hfail | exact Hsent].
Qed.

Lemma deploy_request_gated_on_subscription_witness :
  alerts (trace declining (TemplatesPage.handleDeploy (Some signed_in) "notary-assistant" None))
    = ["Error: Failed to create subscription"]
  ∧ requests (trace declining
                (TemplatesPage.handleDeploy (Some signed_in) "notary-assistant" None))
    = [TemplatesPage.subscription_request (w_session declining) "notary-assistant" "basic"].
Proof.
  split; [|reflexivity].
  apply (proj1 (proj1 (deploy_request_gated_on_subscription None declining signed_in
                         "notary-assistant" None))
           (Response false (inr VNull))); reflexivity.
Defined.

(** C10. The handler takes a template and a tier and nothing else. In
    both versions every request it sends is either the subscription
    request, whose body is [plan_type = templateId-tier] with the
    constant payment method [pm_card_visa], or the deploy request, whose
    body is [template_id = templateId-tier] with the same constant; an
    omitted tier counts as [basic]. With a signed-in user the
    subscription request is always sent. *)
Theorem handleDeploy_payloads
    (API_URL : option string) (w : world) (u : option user) (templateId : string)
    (tier : option string) :
  let plan := templateId +:+ "-" +:+ default "basic" tier in
  let sub_body :=
    VObj [("plan_type", VStr plan); ("payment_method_id", VStr "pm_card_visa")] in
  let dep_body :=
    VObj [("template_id", VStr plan); ("payment_method_id", VStr "pm_card_visa")] in
  (let tr := trace w (TemplatesPage.handleDeploy u templateId tier) in
   (forall r, r ∈ requests tr ->
      (req_url r = TemplatesPage.subscription_url ∧ req_body r = sub_body)
      ∨ (req_url r = TemplatesPage.deploy_url ∧ req_body r = dep_body))
   ∧ (is_Some u -> exists r rest, requests tr = r :: rest
                    ∧ req_url r = TemplatesPage.subscription_url ∧ req_body r = sub_body))
  ∧ (let tr := trace w (TemplatesPageEnv.handleDeploy API_URL u templateId tier) in
     (forall r, r ∈ requests tr ->
        (req_url r = TemplatesPageEnv.subscription_url API_URL ∧ req_body r = sub_body)
        ∨ (req_url r = TemplatesPageEnv.deploy_url API_URL ∧ req_body r = dep_body))
     ∧ (is_Some u -> exists r rest, requests tr = r :: rest
                      ∧ req_url r = TemplatesPageEnv.subscription_url API_URL
                      ∧ req_body r = sub_body)).
Proof.
  intros plan sub_body dep_body. destruct (urls_differ API_URL) as [Hne Hne'].
  destruct u as [u|].
  - split; intros tr.
    + destruct (gate w (TemplatesPage.subscription_request (w_session w) templateId
                          (default "basic" tier))
                  (TemplatesPage.deploy_request (w_session w) templateId
                     (default "basic" tier)) tr Hne
                  (page_run w u templateId tier)) as (_ & _ & Hall & [rest Hfirst]).
      split.
      * intros r Hr. destruct (Hall r Hr) as [->| ->]; [by left | by right].
      * intros _. by eexists _, rest.
    + destruct (gate w (TemplatesPageEnv.subscription_request API_URL (w_session w)
                          templateId (default "basic" tier))
                  (TemplatesPageEnv.deploy_request API_URL (w_session w) templateId
                     (default "basic" tier)) tr Hne'
                  (env_page_run API_URL w u templateId tier)) as (_ & _ & Hall & [rest Hfirst]).
      split.
      * intros r Hr. destruct (Hall r Hr) as [->| ->]; [by left | by right].
      * intros _. by eexists _, rest.
  - split; intros tr; (split; [|by intros [? ?]]); intros r Hr; subst tr;
      cbn in Hr; by apply elem_of_nil in Hr.
Qed.

Lemma handleDeploy_payloads_witness :
  requests (trace accepting (TemplatesPage.handleDeploy (Some signed_in) "notary-assistant"
                               (Some "pro")))
    = [TemplatesPage.subscription_request (w_session accepting) "notary-assistant" "pro";
       TemplatesPage.deploy_request (w_session accepting) "notary-assistant" "pro"]
  ∧ ((TemplatesPage.deploy_url = TemplatesPage.subscription_url
      ∧ VObj [("template_id", VStr "notary-assistant-pro");
              ("payment_method_id", VStr "pm_card_visa")]
        = VObj [("plan_type", VStr "notary-assistant-pro");
                ("payment_method_id", VStr "pm_card_visa")])
     ∨ (TemplatesPage.deploy_url = TemplatesPage.deploy_url
        ∧ VObj [("template_id", VStr "notary-assistant-pro");
                ("payment_method_id", VStr "pm_card_visa")]
          = VObj [("template_id", VStr "notary-assistant-pro");
                  ("payment_method_id", VStr "pm_card_visa")])).
Proof.
  split; [reflexivity|].
  apply (proj1 (proj1 (handleDeploy_payloads None accepting (Some signed_in)
                         "notary-assistant" (Some "pro")))
           (TemplatesPage.deploy_request (w_session accepting) "notary-assistant" "pro")).
  apply elem_of_cons. right. apply elem_of_cons. by left.
Defined.

End Handler.

(** ** Deployments and the subscriptions they reference *)

Module SubscriptionLink.
Import Schema Constraints Examples.
Import Integrity.

(** C1, as stated, fails: in a state the schema reaches, alice inserts a
    Deployment that references her subscription [s1], whose status is
    [canceled], while no active subscription for the deployment's plan
    exists either. The foreign key asks for the row, not for its
    status. *)
Lemma inactive_subscription_referenced :
  ¬ (forall now who id r d d' s,
       consistent d ->
       exec now who (InsertDeployment id r) d = Some d' ->
       dep_subscription_id r = Some s ->
       exists k sub, subscriptions d !! k = Some sub ∧ sub_status sub = "active"
                     ∧ (k = s ∨ sub_plan_type sub = dep_template_id r)).
Proof.
  intros H.
  destruct (H 0 (Caller "alice") "d3" alice_deployment populated
              (set_deployments (<["d3" := alice_deployment]> (deployments populated)) populated)
              "s1" ExampleFacts.populated_consistent) as (k & sub & Hsub & Hactive & Hwhich).
  - vm_compute. reflexivity.
  - reflexivity.
  - cbn in Hsub. apply lookup_insert_Some in Hsub as [[<- <-]|[_ Hsub]].
    + discriminate Hactive.
    + apply lookup_singleton_Some in Hsub as [<- <-].
      destruct Hwhich as [Hk|Hplan]; [discriminate Hk | discriminate Hplan].
Qed.

Lemma restatus_lookup s st d k :
  is_Some (subscriptions (restatus s st d) !! k) <-> is_Some (subscriptions d !! k).
Proof.
  unfold restatus. cbn. destruct (decide (s = k)) as [->|Hne].
  - rewrite lookup_alter_eq. apply fmap_is_Some.
  - by rewrite lookup_alter_ne.
Qed.

(** C1 (amended). Among the paths the sources hold, none looks at the
    status of a subscription before a deployment is created.
    - The schema accepts an [INSERT] into [deployments] that names a
      subscription only if that subscription row exists, and adds
      exactly the given row.
    - Whether the schema accepts it does not depend on the status of
      the named subscription: run in the state that differs only in
      that status, whatever it is set to, the insert does the same.
    - Both versions of [handleDeploy] send the deploy request after any
      ok answer to the subscription request that carries a JSON body,
      whatever that body is. *)
Theorem deployment_insert_ignores_subscription_status
    (now : Z) (who : role) (id : string) (r : deployment) (d : db) (s : string) :
  dep_subscription_id r = Some s ->
  (forall d', exec now who (InsertDeployment id r) d = Some d' ->
     is_Some (subscriptions d !! s)
     ∧ subscriptions d' = subscriptions d
     ∧ deployments d' = <[id := r]> (deployments d)
     ∧ deployments d !! id = None)
  ∧ (forall st,
       exec now who (InsertDeployment id r) (restatus s st d)
       = restatus s st <$> exec now who (InsertDeployment id r) d)
  ∧ (forall API_URL w u templateId tier r1 body,
       let t := default "basic" tier in
       let session := Browser.w_session w in
       (Browser.w_fetch w (TemplatesPage.subscription_request session templateId t) = inr r1 ->
        Browser.ok r1 = true -> Browser.json_body r1 = inr body ->
        Browser.requests
          (Browser.trace w (TemplatesPage.handleDeploy (Some u) templateId tier))
        = [TemplatesPage.subscription_request session templateId t;
           TemplatesPage.deploy_request session templateId t])
       ∧ (Browser.w_fetch w (TemplatesPageEnv.subscription_request API_URL session templateId t)
          = inr r1 ->
          Browser.ok r1 = true -> Browser.json_body r1 = inr body ->
          Browser.requests
            (Browser.trace w (TemplatesPageEnv.handleDeploy API_URL (Some u) templateId tier))
          = [TemplatesPageEnv.subscription_request API_URL session templateId t;
             TemplatesPageEnv.deploy_request API_URL session templateId t])).
Proof.
  intros Href. split_and!.
  - intros d' H. run_exec H. split_and!; try done. by eapply fk_opt_spec.
  - intros st. cbn -[may_insert restatus].
    assert (may_insert (restatus s st d) who (RDeployment id r)
            = may_insert d who (RDeployment id r)) as ->.
    { destruct who as [c|]; [|done]. cbn -[rls_check restatus]. by Isolation.rls. }
    assert (fk_opt (subscriptions (restatus s st d)) (dep_subscription_id r)
            = fk_opt (subscriptions d) (dep_subscription_id r)) as ->.
    { rewrite Href. unfold fk_opt. apply bool_decide_ext, restatus_lookup. }
    change (deployments (restatus s st d)) with (deployments d).
    change (user_profiles (restatus s st d)) with (user_profiles d).
    by destruct (_ && _).
  - intros API_URL w u templateId tier r1 body t session. split; intros H1 Hok Hbody.
    + pose proof (HandlerFacts.page_run w u templateId tier) as Hrun. cbn zeta in Hrun.
      fold t session in Hrun. rewrite H1, Hok, Hbody in Hrun. apply Hrun.
    + pose proof (HandlerFacts.env_page_run API_URL w u templateId tier) as Hrun.
      cbn zeta in Hrun. fold t session in Hrun. rewrite H1, Hok, Hbody in Hrun. apply Hrun.
Qed.

Lemma deployment_insert_ignores_subscription_status_witness :
  dep_subscription_id alice_deployment = Some "s1"
  ∧ exec 0 (Caller "alice") (InsertDeployment "d3" alice_deployment) populated
    = Some (set_deployments (<["d3" := alice_deployment]> (deployments populated)) populated)
  ∧ is_Some (subscriptions populated !! "s1")
  ∧ exec 0 (Caller "alice") (InsertDeployment "d3" alice_deployment)
      (restatus "s1" "active" populated)
    = Some (restatus "s1" "active"
              (set_deployments (<["d3" := alice_deployment]> (deployments populated))
                 populated)).
Proof.
  assert (exec 0 (Caller "alice") (InsertDeployment "d3" alice_deployment) populated
    = Some (set_deployments (<["d3" := alice_deployment]> (deployments populated)) populated))
    as Hrun by (vm_compute; reflexivity).
  destruct (deployment_insert_ignores_subscription_status 0 (Caller "alice") "d3"
              alice_deployment populated "s1" eq_refl) as (Hexists & Hstatus & _).
  split_and!; [reflexivity | exact Hrun | exact (proj1 (Hexists _ Hrun)) |].
  rewrite (Hstatus "active"), Hrun. reflexivity.
Defined.

End SubscriptionLink.

(** ** The backend's deploy *)

Module WriteAfterConfirm.
Import Schema Backend Examples.

(** C2. When the infrastructure provider turns the provisioning request
    down, [deploy] leaves the store exactly as it was and reports an
    error, [ProvisioningFailed] for an authenticated caller. Conversely
    a store that changed means the provider confirmed: the one new row
    sits under the fresh key with status [deploying] and the provider's
    reference and URL, and its id and URL are what is returned. *)
Theorem deploy_writes_only_after_confirmation
    (provider : string -> option provisioned) (now : Z) (fresh : string)
    (caller : option principal) (templateSelector paymentMethodToken : string) (d : db) :
  let out := deploy provider now fresh caller templateSelector paymentMethodToken d in
  (provider templateSelector = None ->
     out.1 = d
     ∧ exists e, out.2 = inl e ∧ (is_Some caller -> e = ProvisioningFailed))
  ∧ (out.1 ≠ d ->
     exists r who new,
       provider templateSelector = Some r ∧ caller = Some who
       ∧ out.1 = set_deployments (<[fresh := new]> (deployments d)) d
       ∧ dep_status new = Some "deploying"
       ∧ dep_user_id new = principal_id who
       ∧ dep_droplet_id new = Some (resource_reference r)
       ∧ dep_url new = Some (resource_url r)
       ∧ out.2 = inr (fresh, resource_url r)).
Proof.
  intros out. subst out. unfold deploy. split.
  - intros ->. destruct caller as [who|]; cbn.
    + split; [done|]. by exists ProvisioningFailed.
    + split; [done|]. exists Unauthenticated. split; [done|]. by intros [? ?].
  - destruct caller as [who|]; cbn; [|done].
    destruct (provider templateSelector) as [r|]; cbn; [|done].
    intros _. eexists r, who, _. split_and!; done.
Qed.

Lemma deploy_writes_only_after_confirmation_witness :
  (deploy (fun _ => None) 0 "d9" (Some (Principal "alice" "alice@example.com"))
     "notary-assistant-basic" "pm_card_visa" populated).1 = populated.
Proof.
  apply (proj1 (deploy_writes_only_after_confirmation (fun _ => None) 0 "d9"
                  (Some (Principal "alice" "alice@example.com"))
                  "notary-assistant-basic" "pm_card_visa" populated)).
  reflexivity.
Defined.

End WriteAfterConfirm.

(** ** The deployments page *)

Module DeploymentsPageFacts.
Import Schema DeploymentsPage.

(** C5, as stated, fails. Whatever [listDeployments] is, as long as it
    returns rows of the store that the caller owns, the page does not
    render it: on an empty store there is nothing to list, and the page
    shows three cards. Nor are the cards in descending order of
    creation. *)
Lemma page_is_not_a_listing :
  ¬ (exists listDeployments : db -> string -> list (string * deployment),
       (forall d caller k p, (k, p) ∈ listDeployments d caller ->
          deployments d !! k = Some p ∧ dep_user_id p = caller)
       ∧ (forall d caller, map card_key Deployments = (listDeployments d caller).*1))
  ∧ created_desc (map created dummyDeployments) = false.
Proof.
  split; [|by vm_compute].
  intros (listDeployments & Hown & Hpage).
  specialize (Hpage empty_db "alice").
  destruct (listDeployments empty_db "alice") as [|[k p] l] eqn:E; [discriminate Hpage|].
  destruct (Hown empty_db "alice" k p) as [Hrow _].
  - rewrite E. apply elem_of_cons. by left.
  - cbn in Hrow. by rewrite lookup_empty in Hrow.
Qed.

(** C5 (amended). The deployments page renders the constant
    [dummyDeployments]: three cards, keyed [1], [2], [3] in array order,
    which is ascending by creation date, each card carrying the name,
    template, status, plan and URL of its record. The component has no
    input: nothing of the caller or of the store reaches it, and it
    changes nothing. *)
Theorem page_renders_fixed_sample :
  map card_key Deployments = ["1"; "2"; "3"]
  ∧ map badge_text Deployments = ["running"; "deploying"; "stopped"]
  ∧ map card_created Deployments
    = ["Created: 2024-01-15"; "Created: 2024-01-18"; "Created: 2024-01-20"]
  ∧ created_asc (map created dummyDeployments) = true
  ∧ Forall2 (fun c x =>
       card_key c = id x ∧ card_title c = name x ∧ card_template c = template x
       ∧ badge_text c = status x ∧ card_plan c = plan x
       ∧ link_href c = url x ∧ link_text c = url x)
      Deployments dummyDeployments.
Proof.
  split_and!; try reflexivity.
  unfold Deployments. induction dummyDeployments as [|x l IH]; constructor; done.
Qed.

End DeploymentsPageFacts.

(** * Further properties of the schema *)

Set Warnings "-clear-no-such-hyp".

Module SchemaFacts.
Import Schema Constraints Examples.
Import Integrity.

Lemma caller_cannot_insert_profile d c id r : may_insert d (Caller c) (RProfile id r) = false.
Proof. done. Qed.

Lemma own_profile_update d c id old new :
  may_update d (Caller c) (RProfile id old) (RProfile id new) = true -> id = c.
Proof.
  cbn -[rls_using rls_check]. Isolation.rls. intros H.
  apply andb_prop in H as [H _]. apply andb_prop in H as [H _].
  apply andb_prop in H as [H _]. by apply bool_decide_eq_true_1 in H.
Qed.

Lemma own_deployment_update d c id old new :
  may_update d (Caller c) (RDeployment id old) (RDeployment id new) = true ->
  dep_user_id old = c ∧ dep_user_id new = c.
Proof.
  cbn -[rls_using rls_check]. Isolation.rls. intros H.
  apply andb_prop in H as [H H4]. apply andb_prop in H as [H H3].
  apply andb_prop in H as [H1 H2].
  apply bool_decide_eq_true_1 in H1. apply bool_decide_eq_true_1 in H3. done.
Qed.

Lemma own_insert d c r :
  may_insert d (Caller c) r = true ->
  match r with
  | RSubscription _ s => sub_user_id s = c
  | RDeployment _ p => dep_user_id p = c
  | _ => False
  end.
Proof.
  destruct r; cbn -[rls_check]; Isolation.rls; try done;
    by intros ->%bool_decide_eq_true_1.
Qed.

(** X1. Every statement the schema accepts, and so every script of
    them, keeps all five foreign keys of the script intact: profiles
    belong to known users, subscriptions and deployments to existing
    profiles, a deployment's subscription and a history entry's
    deployment, where given, exist. *)
Theorem scripts_keep_foreign_keys (now : Z) (script : list (role * op)) (d d' : db) :
  consistent d -> exec_all now script d = Some d' -> consistent d'.
Proof.
  revert d. induction script as [|[who o] script IH]; intros d Hd H; cbn in H.
  - by injection H as <-.
  - destruct (exec now who o d) as [d1|] eqn:E; [|done].
    apply (IH d1); [|done]. by apply (exec_consistent now who o d).
Qed.

Lemma scripts_keep_foreign_keys_witness : consistent populated.
Proof.
  apply (scripts_keep_foreign_keys 0 setup seed populated).
  - split; cbn; intros *; by rewrite ?lookup_empty.
  - vm_compute. reflexivity.
Defined.

Lemma email_free_spec d id e :
  email_free d id e = true <->
  forall k r, user_profiles d !! k = Some r -> k = id ∨ up_email r ≠ e.
Proof. unfold email_free. by rewrite bool_decide_eq_true. Qed.

(** X2. No statement lets two profiles share an email address: the
    [UNIQUE] constraint holds in the state after any accepted
    statement if it held before. *)
Theorem statements_keep_emails_unique (now : Z) (who : role) (o : op) (d d' : db) :
  emails_unique d -> exec now who o d = Some d' -> emails_unique d'.
Proof.
  intros Hd H.
  assert (forall m : gmap string user_profile,
            (forall k r, m !! k = Some r -> user_profiles d !! k = Some r) ->
            forall i j r r', m !! i = Some r -> m !! j = Some r' ->
                             up_email r = up_email r' -> i = j) as Hsub.
  { intros m Hm i j r r' Hi Hj. apply Hd; by apply Hm. }
  assert (forall id x, email_free d id (up_email x) = true ->
            forall i j r r', <[id := x]> (user_profiles d) !! i = Some r ->
                             <[id := x]> (user_profiles d) !! j = Some r' ->
                             up_email r = up_email r' -> i = j) as Hins.
  { intros id x Hfree i j r r' Hi Hj Heq.
    pose proof (proj1 (email_free_spec d id (up_email x)) Hfree) as Hother. clear Hfree.
    apply lookup_insert_Some in Hi as [[<- <-]|[Hi1 Hi2]];
      apply lookup_insert_Some in Hj as [[<- <-]|[Hj1 Hj2]]; try done.
    - destruct (Hother _ _ Hj2) as [->|Hne]; [done|]. by destruct Hne.
    - destruct (Hother _ _ Hi2) as [->|Hne]; [done|]. by destruct Hne.
    - by eapply Hd. }
  destruct o as [id r|id r|id|id r|id r|id|id r|id r|id|id r|id r|id|id]; run_exec H;
    try exact Hd; unfold emails_unique; cbn.
  - by apply Hins.
  - by apply Hins.
  - apply Hsub. by intros k x [_ ?]%lookup_delete_Some.
  - apply Hsub. by intros k x [_ ?]%lookup_delete_Some.
Qed.

Lemma statements_keep_emails_unique_witness :
  emails_unique seed
  ∧ exec 0 TableOwner (InsertProfile "alice" alice_profile) seed
    = Some (set_user_profiles {["alice" := alice_profile]} seed)
  ∧ exec 0 TableOwner (InsertProfile "bob" alice_profile)
      (set_user_profiles {["alice" := alice_profile]} seed) = None
  ∧ emails_unique (set_user_profiles {["alice" := alice_profile]} seed).
Proof.
  assert (emails_unique seed) as H0.
  { intros i j r r' Hi. cbn in Hi. by rewrite lookup_empty in Hi. }
  split_and!; [exact H0 | by vm_compute | by vm_compute |].
  apply (statements_keep_emails_unique 0 TableOwner (InsertProfile "alice" alice_profile) seed);
    [exact H0 | by vm_compute].
Defined.

Lemma detach_cases now gone p :
  detach_subscription now gone p = p
  ∨ dep_updated_at (detach_subscription now gone p) = Some now.
Proof. unfold detach_subscription. repeat case_match; auto. Qed.

(** X3. The [updated_at] triggers make the column trustworthy: whatever
    statement runs, and whatever it cascades to, a row of
    [user_profiles], [subscriptions] or [deployments] that is still
    there afterwards is either exactly as it was or carries the time of
    the statement in [updated_at], no matter what value the statement
    supplied for that column. *)
Theorem rows_change_only_with_fresh_updated_at
    (now : Z) (who : role) (o : op) (d d' : db) :
  exec now who o d = Some d' ->
  (forall id r r', user_profiles d !! id = Some r -> user_profiles d' !! id = Some r' ->
     r' = r ∨ up_updated_at r' = Some now)
  ∧ (forall id s s', subscriptions d !! id = Some s -> subscriptions d' !! id = Some s' ->
     s' = s ∨ sub_updated_at s' = Some now)
  ∧ (forall id p p', deployments d !! id = Some p -> deployments d' !! id = Some p' ->
     p' = p ∨ dep_updated_at p' = Some now).
Proof.
  intros H.
  destruct o as [id r|id r|id|id r|id r|id|id r|id r|id|id r|id r|id|id]; run_exec H;
    cbn; split_and!; intros k x x' Hx Hx';
    try (left; congruence).
  - apply lookup_insert_Some in Hx' as [[<- <-]|[_ ?]]; [congruence | left; congruence].
  - apply lookup_insert_Some in Hx' as [[<- <-]|[_ ?]]; [by right | left; congruence].
  - apply lookup_delete_Some in Hx' as [_ ?]. left. congruence.
  - apply map_lookup_filter_Some in Hx' as [? _]. left. congruence.
  - apply lookup_fmap_Some in Hx' as (y & <- & Hy).
    apply map_lookup_filter_Some in Hy as [Hy _]. assert (y = x) as -> by congruence.
    apply detach_cases.
  - apply lookup_insert_Some in Hx' as [[<- <-]|[_ ?]]; [congruence | left; congruence].
  - apply lookup_insert_Some in Hx' as [[<- <-]|[_ ?]]; [by right | left; congruence].
  - apply lookup_delete_Some in Hx' as [_ ?]. left. congruence.
  - apply lookup_fmap_Some in Hx' as (y & <- & Hy). assert (y = x) as -> by congruence.
    apply detach_cases.
  - apply lookup_insert_Some in Hx' as [[<- <-]|[_ ?]]; [congruence | left; congruence].
  - apply lookup_insert_Some in Hx' as [[<- <-]|[_ ?]]; [by right | left; congruence].
  - apply lookup_delete_Some in Hx' as [_ ?]. left. congruence.
  - apply lookup_delete_Some in Hx' as [_ ?]. left. congruence.
  - apply map_lookup_filter_Some in Hx' as [? _]. left. congruence.
  - apply lookup_fmap_Some in Hx' as (y & <- & Hy).
    apply map_lookup_filter_Some in Hy as [Hy _]. assert (y = x) as -> by congruence.
    apply detach_cases.
Qed.

Lemma rows_change_only_with_fresh_updated_at_witness :
  dep_updated_at bob_deployment = None
  ∧ exists d' p', exec 9 TableOwner (DeleteSubscription "s2") populated = Some d'
      ∧ deployments d' !! "d2" = Some p'
      ∧ p' ≠ bob_deployment ∧ dep_updated_at p' = Some 9.
Proof.
  split; [reflexivity|].
  eexists _, (touch_deployment 9 (deployment_with "bob" "bob@example.com" (Some "running") None)).
  assert (exec 9 TableOwner (DeleteSubscription "s2") populated
          = Some (remove_subscription 9 "s2" populated)) as Hrun by reflexivity.
  assert (deployments (remove_subscription 9 "s2" populated) !! "d2"
          = Some (touch_deployment 9
                    (deployment_with "bob" "bob@example.com" (Some "running") None))) as Hrow
    by (vm_compute; reflexivity).
  split_and!; [exact Hrun | exact Hrow | discriminate |].
  destruct (rows_change_only_with_fresh_updated_at 9 TableOwner (DeleteSubscription "s2")
              populated _ Hrun) as (_ & _ & Hdep).
  destruct (Hdep "d2" bob_deployment _ eq_refl Hrow) as [Hsame|Hstamp];
    [discriminate Hsame | exact Hstamp].
Defined.

(** X4. Write isolation. Whatever statement a caller under row-level
    security gets through, it leaves [auth.users], the set of profiles
    and the update history as they were, changes no profile but the
    caller's own, removes and changes no subscription, removes no
    deployment, leaves every deployment owned by someone else exactly as
    it was, and every subscription or deployment row that is new or
    different afterwards is owned by the caller: a row cannot be handed
    to another user. *)
Theorem caller_writes_only_own_rows (now : Z) (c : string) (o : op) (d d' : db) :
  exec now (Caller c) o d = Some d' ->
  auth_users d' = auth_users d
  ∧ update_history d' = update_history d
  ∧ dom (user_profiles d') = dom (user_profiles d)
  ∧ (forall id, id ≠ c -> user_profiles d' !! id = user_profiles d !! id)
  ∧ (forall id s, subscriptions d !! id = Some s -> subscriptions d' !! id = Some s)
  ∧ (forall id s, subscriptions d' !! id = Some s ->
       subscriptions d !! id = Some s ∨ sub_user_id s = c)
  ∧ (forall id p, deployments d !! id = Some p ->
       is_Some (deployments d' !! id)
       ∧ (dep_user_id p ≠ c -> deployments d' !! id = Some p))
  ∧ (forall id p, deployments d' !! id = Some p ->
       deployments d !! id = Some p ∨ dep_user_id p = c).
Proof.
  intros H.
  destruct o as [id r|id r|id|id r|id r|id|id r|id r|id|id r|id r|id|id]; run_exec H;
    try (by rewrite ?Changes.caller_cannot_delete, ?Changes.caller_cannot_insert_history,
              ?Changes.caller_cannot_update_history, ?Isolation.subscription_update_denied,
              ?caller_cannot_insert_profile in * );
    cbn.
  - (* UPDATE user_profiles *)
    match goal with G : may_update _ _ _ _ = true |- _ => apply own_profile_update in G as -> end.
    split_and!; try done; try (intros; by eauto).
    + apply dom_insert_lookup_L. by eexists.
    + intros k Hne. by rewrite lookup_insert_ne.
  - (* INSERT INTO subscriptions *)
    match goal with G : may_insert _ _ _ = true |- _ => apply own_insert in G end.
    split_and!; try done; try (intros; by eauto).
    + intros k x Hx. rewrite lookup_insert_ne by congruence. done.
    + intros k x [[<- <-]|[_ ?]]%lookup_insert_Some; auto.
  - (* INSERT INTO deployments *)
    match goal with G : may_insert _ _ _ = true |- _ => apply own_insert in G end.
    split_and!; try done; try (intros; by eauto).
    + intros k x Hx. rewrite lookup_insert_ne by congruence. split; [by eexists|done].
    + intros k x [[<- <-]|[_ ?]]%lookup_insert_Some; auto.
  - (* UPDATE deployments *)
    match goal with
      G : may_update _ _ _ _ = true |- _ => apply own_deployment_update in G as [Hold Hnew]
    end.
    split_and!; try done; try (intros; by eauto).
    + intros k x Hx. destruct (decide (id = k)) as [->|Hne].
      * rewrite lookup_insert_eq. split; [by eexists|]. intros Hother. congruence.
      * rewrite lookup_insert_ne by done. split; [by eexists|done].
    + intros k x [[<- <-]|[_ ?]]%lookup_insert_Some; auto.
Qed.

Lemma caller_writes_only_own_rows_witness :
  exists d', exec 5 (Caller "alice")
               (UpdateDeployment "d1" (with_status (Some "stopped") alice_deployment))
               populated = Some d'
             ∧ deployments d' !! "d2" = Some bob_deployment
             ∧ subscriptions d' !! "s2" = Some bob_subscription.
Proof.
  eexists.
  assert (exec 5 (Caller "alice")
            (UpdateDeployment "d1" (with_status (Some "stopped") alice_deployment)) populated
          = Some (set_deployments
                    (<["d1" := touch_deployment 5
                                 (with_status (Some "stopped") alice_deployment)]>
                       (deployments populated)) populated)) as Hrun by (vm_compute; reflexivity).
  destruct (caller_writes_only_own_rows 5 "alice" _ populated _ Hrun)
    as (_ & _ & _ & _ & Hsub & _ & Hdep & _).
  split_and!; [exact Hrun | | ].
  - by apply (Hdep "d2" bob_deployment).
  - by apply (Hsub "s2" bob_subscription).
Defined.

(** X5. What a caller reads. A [SELECT] by caller [c] returns exactly
    the rows [c] owns: the profile keyed [c], the subscriptions and
    deployments whose [user_id] is [c], and the history entries whose
    parent deployment exists and is owned by [c]. An entry without a
    parent is returned to no caller. *)
Theorem caller_reads_exactly_own_rows (d : db) (c : string) :
  (forall id r, select_user_profiles (Caller c) d !! id = Some r <->
     user_profiles d !! id = Some r ∧ id = c)
  ∧ (forall id s, select_subscriptions (Caller c) d !! id = Some s <->
     subscriptions d !! id = Some s ∧ sub_user_id s = c)
  ∧ (forall id p, select_deployments (Caller c) d !! id = Some p <->
     deployments d !! id = Some p ∧ dep_user_id p = c)
  ∧ (forall id h, select_update_history (Caller c) d !! id = Some h <->
     update_history d !! id = Some h
     ∧ exists did p, uh_deployment_id h = Some did ∧ deployments d !! did = Some p
                     ∧ dep_user_id p = c).
Proof.
  split_and!; intros id x.
  - unfold select_user_profiles. rewrite map_lookup_filter_Some. cbn -[rls_using].
    Isolation.rls. rewrite Is_true_true, bool_decide_eq_true. naive_solver.
  - unfold select_subscriptions. rewrite map_lookup_filter_Some. cbn -[rls_using].
    Isolation.rls. rewrite Is_true_true, bool_decide_eq_true. naive_solver.
  - unfold select_deployments. rewrite map_lookup_filter_Some. cbn -[rls_using].
    Isolation.rls. rewrite Is_true_true, bool_decide_eq_true. naive_solver.
  - unfold select_update_history. rewrite map_lookup_filter_Some. cbn -[rls_using].
    Isolation.rls. cbn. rewrite Is_true_true.
    destruct (uh_deployment_id x) as [did|]; [|naive_solver].
    destruct (deployments d !! did) as [p|] eqn:E; [|naive_solver].
    rewrite bool_decide_eq_true. naive_solver.
Qed.

(** X6. Read your writes. A subscription or deployment a caller has
    just inserted is among the rows the caller's next [SELECT] returns,
    together with everything the caller could read before. *)
Theorem caller_reads_own_insert (now : Z) (c : string) (id : string) (d d' : db) :
  (forall r, exec now (Caller c) (InsertDeployment id r) d = Some d' ->
     select_deployments (Caller c) d' = <[id := r]> (select_deployments (Caller c) d))
  ∧ (forall r, exec now (Caller c) (InsertSubscription id r) d = Some d' ->
     select_subscriptions (Caller c) d' = <[id := r]> (select_subscriptions (Caller c) d)).
Proof.
  split; intros r H; run_exec H;
    match goal with G : may_insert _ _ _ = true |- _ => apply own_insert in G end.
  - unfold select_deployments. cbn -[rls_using]. rewrite map_filter_insert_True; [done|].
    cbn -[rls_using]. Isolation.rls. by rewrite bool_decide_eq_true_2.
  - unfold select_subscriptions. cbn -[rls_using]. rewrite map_filter_insert_True; [done|].
    cbn -[rls_using]. Isolation.rls. by rewrite bool_decide_eq_true_2.
Qed.

Lemma caller_reads_own_insert_witness :
  select_deployments (Caller "alice")
    (set_deployments (<["d3" := alice_deployment]> (deployments populated)) populated)
  = <["d3" := alice_deployment]> (select_deployments (Caller "alice") populated).
Proof.
  apply (proj1 (caller_reads_own_insert 0 "alice" "d3" populated _) alice_deployment).
  vm_compute. reflexivity.
Defined.

Lemma detach_columns now gone p :
  let p' := detach_subscription now gone p in
  dep_user_id p' = dep_user_id p ∧ dep_user_email p' = dep_user_email p
  ∧ dep_template_id p' = dep_template_id p ∧ dep_droplet_id p' = dep_droplet_id p
  ∧ dep_url p' = dep_url p ∧ dep_status p' = dep_status p
  ∧ dep_created_at p' = dep_created_at p
  ∧ dep_auto_update_enabled p' = dep_auto_update_enabled p
  ∧ dep_update_schedule p' = dep_update_schedule p.
Proof. unfold detach_subscription. by repeat case_match. Qed.

(** X7. Deleting a subscription deletes no deployment. Every deployment
    keeps its key, its owner, template, droplet, URL and status; the
    deployments that referenced the subscription have [subscription_id]
    set to [NULL], the others keep theirs; and the update history is
    untouched. *)
Theorem deleting_subscription_detaches_deployments
    (now : Z) (who : role) (id : string) (d d' : db) :
  exec now who (DeleteSubscription id) d = Some d' ->
  subscriptions d' = delete id (subscriptions d)
  ∧ update_history d' = update_history d
  ∧ user_profiles d' = user_profiles d
  ∧ dom (deployments d') = dom (deployments d)
  ∧ forall k p, deployments d !! k = Some p ->
      exists p', deployments d' !! k = Some p'
        ∧ dep_user_id p' = dep_user_id p ∧ dep_template_id p' = dep_template_id p
        ∧ dep_droplet_id p' = dep_droplet_id p ∧ dep_url p' = dep_url p
        ∧ dep_status p' = dep_status p
        ∧ dep_subscription_id p'
          = (if decide (dep_subscription_id p = Some id) then None
             else dep_subscription_id p).
Proof.
  intros H. run_exec H. cbn. split_and!; try done.
  - apply dom_fmap_L.
  - intros k p Hp. eexists. rewrite lookup_fmap, Hp. split; [done|].
    destruct (detach_columns now (fun k => bool_decide (k = id)) p)
      as (? & _ & ? & ? & ? & ? & _).
    split_and!; try done.
    unfold detach_subscription. destruct (dep_subscription_id p) as [ref|] eqn:Href.
    + destruct (decide (ref = id)) as [->|Hne].
      * rewrite bool_decide_eq_true_2 by done. cbn. by rewrite decide_True.
      * rewrite bool_decide_eq_false_2 by done. rewrite Href.
        rewrite decide_False; [done|congruence].
    + rewrite Href. by rewrite decide_False.
Qed.

Lemma deleting_subscription_detaches_deployments_witness :
  exists d' p', exec 9 TableOwner (DeleteSubscription "s2") populated = Some d'
    ∧ deployments d' !! "d2" = Some p'
    ∧ dep_status p' = Some "running" ∧ dep_subscription_id p' = None.
Proof.
  assert (exec 9 TableOwner (DeleteSubscription "s2") populated
          = Some (remove_subscription 9 "s2" populated)) as Hrun by reflexivity.
  destruct (deleting_subscription_detaches_deployments 9 TableOwner "s2" populated _ Hrun)
    as (_ & _ & _ & _ & Hdep).
  destruct (Hdep "d2" bob_deployment eq_refl) as (p' & Hrow & _ & _ & _ & _ & Hst & Hsub).
  exists (remove_subscription 9 "s2" populated), p'. by split_and!.
Defined.

(** X8. Erasure. When the identity provider deletes a user, nothing of
    the user is left: no profile,
    no subscription or deployment with that [user_id], no deployment
    pointing at one of the user's former subscriptions, no history
    entry of one of the user's former deployments. Every other user's
    subscriptions are exactly as before, and every other user's
    deployments are still there under the same key and owner. *)
Theorem deleting_user_erases_their_rows (now : Z) (who : role) (uid : string) (d d' : db) :
  exec now who (DeleteAuthUser uid) d = Some d' ->
  (uid ∉ auth_users d')
  ∧ user_profiles d' !! uid = None
  ∧ (forall id s, subscriptions d' !! id = Some s -> sub_user_id s ≠ uid)
  ∧ (forall id p, deployments d' !! id = Some p ->
       dep_user_id p ≠ uid
       ∧ forall s, dep_subscription_id p = Some s -> owns_subscription d uid s = false)
  ∧ (forall id h did, update_history d' !! id = Some h -> uh_deployment_id h = Some did ->
       owns_deployment d uid did = false)
  ∧ (forall id s, subscriptions d !! id = Some s -> sub_user_id s ≠ uid ->
       subscriptions d' !! id = Some s)
  ∧ (forall id p, deployments d !! id = Some p -> dep_user_id p ≠ uid ->
       exists p', deployments d' !! id = Some p' ∧ dep_user_id p' = dep_user_id p
                  ∧ dep_status p' = dep_status p).
Proof.
  intros H. run_exec H. cbn. split_and!.
  - set_solver.
  - apply lookup_delete_eq.
  - intros id s Hs. apply map_lookup_filter_Some in Hs as [_ Hne]. done.
  - intros id p Hp. apply lookup_fmap_Some in Hp as (p0 & <- & Hp0).
    apply map_lookup_filter_Some in Hp0 as [Hp0 Hne]. cbn in Hne.
    rewrite detach_keeps_owner. split; [done|].
    intros s Hs. by apply detach_reference in Hs as [_ ?].
  - intros id h did Hh Hparent. apply cascade_history_lookup in Hh as [_ Hkeep].
    unfold history_survives in Hkeep. rewrite Hparent in Hkeep.
    by apply negb_true_iff in Hkeep.
  - intros id s Hs Hne. by apply map_lookup_filter_Some_2.
  - intros id p Hp Hne. eexists. rewrite lookup_fmap.
    erewrite map_lookup_filter_Some_2; [|done|done]. cbn.
    split; [done|]. by rewrite detach_keeps_owner, detach_keeps_status.
Qed.

Lemma deleting_user_erases_their_rows_witness :
  exists d', exec 3 TableOwner (DeleteAuthUser "alice") populated = Some d'
    ∧ subscriptions d' = {["s2" := bob_subscription]}
    ∧ (forall id p, deployments d' !! id = Some p -> dep_user_id p ≠ "alice").
Proof.
  assert (exec 3 TableOwner (DeleteAuthUser "alice") populated
          = Some (remove_auth_user 3 "alice" populated)) as Hrun by reflexivity.
  exists (remove_auth_user 3 "alice" populated). split_and!; [exact Hrun | by vm_compute |].
  intros id p Hp.
  destruct (deleting_user_erases_their_rows 3 TableOwner "alice" populated _ Hrun)
    as (_ & _ & _ & Hdep & _).
  by destruct (Hdep id p Hp).
Defined.

(** X19. What an [INSERT] by a caller is checked for. A caller's insert
    into [subscriptions] goes through exactly when the key is new, the
    row names the caller as its [user_id] and the caller has a profile;
    an insert into [deployments] needs, besides, that the subscription
    it references, if any, exists. Nothing else about the row matters:
    the plan, the billing reference and the [status] of a subscription a
    caller inserts for themselves are whatever the caller writes. *)
Theorem caller_insert_conditions (now : Z) (c : string) (id : string) (d : db) :
  (forall s d', exec now (Caller c) (InsertSubscription id s) d = Some d' <->
     subscriptions d !! id = None ∧ sub_user_id s = c ∧ is_Some (user_profiles d !! c)
     ∧ d' = set_subscriptions (<[id := s]> (subscriptions d)) d)
  ∧ (forall p d', exec now (Caller c) (InsertDeployment id p) d = Some d' <->
     deployments d !! id = None ∧ dep_user_id p = c ∧ is_Some (user_profiles d !! c)
     ∧ (forall ref, dep_subscription_id p = Some ref -> is_Some (subscriptions d !! ref))
     ∧ d' = set_deployments (<[id := p]> (deployments d)) d).
Proof.
  split.
  - intros s d'. split.
    + intros H. run_exec H.
      match goal with G : may_insert _ _ _ = true |- _ => apply own_insert in G end.
      subst c. done.
    + intros (Hfresh & <- & Hprofile & ->). cbn -[rls_check]. Isolation.rls.
      unfold fk. by rewrite !bool_decide_eq_true_2.
  - intros p d'. split.
    + intros H. run_exec H.
      match goal with G : may_insert _ _ _ = true |- _ => apply own_insert in G end.
      subst c. split_and!; try done. intros ref Href. by eapply fk_opt_spec.
    + intros (Hfresh & <- & Hprofile & Href & ->). cbn -[rls_check]. Isolation.rls.
      unfold fk. rewrite !bool_decide_eq_true_2 by done.
      unfold fk_opt. destruct (dep_subscription_id p) as [ref|]; [|done].
      by rewrite bool_decide_eq_true_2 by eauto.
Qed.

End SchemaFacts.

(** * Further properties of the dashboard *)

Module HandlerTraces.
Import Js Browser TemplatesView.

(** The whole trace of the plain handler, by the server's answers. *)
Lemma page_trace w u templateId tier :
  let t := default "basic" tier in
  let sq := TemplatesPage.subscription_request (w_session w) templateId t in
  let dq := TemplatesPage.deploy_request (w_session w) templateId t in
  run w (TemplatesPage.handleDeploy (Some u) templateId tier) =
  (ESetDeploying (Some templateId) :: EGetSession :: EFetch sq ::
   match w_fetch w sq with
   | inl e => [EAlert ("Error: " +:+ message e); ESetDeploying None]
   | inr r1 =>
       if ok r1 then
         match json_body r1 with
         | inl e => [EAlert ("Error: " +:+ message e); ESetDeploying None]
         | inr _ =>
             EFetch dq ::
             match w_fetch w dq with
             | inl e => [EAlert ("Error: " +:+ message e); ESetDeploying None]
             | inr r2 =>
                 if ok r2 then
                   match json_body r2 with
                   | inl e => [EAlert ("Error: " +:+ message e); ESetDeploying None]
                   | inr v =>
                       match get v "url" with
                       | inl e => [EAlert ("Error: " +:+ message e); ESetDeploying None]
                       | inr x => [EAlert ("Deployment started! URL: " +:+ to_string x);
                                   ESetDeploying None]
                       end
                   end
                 else [EAlert "Error: Failed to deploy"; ESetDeploying None]
             end
         end
       else [EAlert "Error: Failed to create subscription"; ESetDeploying None]
   end, inr tt).
Proof.
  intros t sq dq. unfold TemplatesPage.handleDeploy.
  fold t. cbn -[TemplatesPage.subscription_request TemplatesPage.deploy_request get to_string].
  fold sq dq.
  destruct (w_fetch w sq) as [e|[o1 j1]]; [done|].
  cbn -[TemplatesPage.deploy_request get to_string].
  destruct o1; [|done]. cbn -[TemplatesPage.deploy_request get to_string].
  destruct j1 as [e|v]; [done|]. cbn -[TemplatesPage.deploy_request get to_string]. fold dq.
  destruct (w_fetch w dq) as [e|[o2 j2]]; [done|]. cbn -[get to_string].
  destruct o2; [|done]. cbn -[get to_string].
  destruct j2 as [e|v2]; [done|]. cbn -[get to_string].
  destruct (get v2 "url"); done.
Qed.

(** The same for the handler configured from the environment. *)
Lemma env_page_trace API_URL w u templateId tier :
  let t := default "basic" tier in
  let sq := TemplatesPageEnv.subscription_request API_URL (w_session w) templateId t in
  let dq := TemplatesPageEnv.deploy_request API_URL (w_session w) templateId t in
  run w (TemplatesPageEnv.handleDeploy API_URL (Some u) templateId tier) =
  (ESetDeploying (Some templateId) :: EGetSession ::
   ELog "Sending subscription request:" (TemplatesPageEnv.subscription_url API_URL)
     (TemplatesPageEnv.subscriptionPayload templateId t) ::
   EFetch sq ::
   match w_fetch w sq with
   | inl e => [EAlert ("Error: " +:+ message e); ESetDeploying None]
   | inr r1 =>
       if ok r1 then
         match json_body r1 with
         | inl e => [EAlert ("Error: " +:+ message e); ESetDeploying None]
         | inr _ =>
             ELog "Sending deploy request:" (TemplatesPageEnv.deploy_url API_URL)
               (TemplatesPageEnv.deployPayload templateId t) ::
             EFetch dq ::
             match w_fetch w dq with
             | inl e => [EAlert ("Error: " +:+ message e); ESetDeploying None]
             | inr r2 =>
                 if ok r2 then
                   match json_body r2 with
                   | inl e => [EAlert ("Error: " +:+ message e); ESetDeploying None]
                   | inr v =>
                       match get v "url" with
                       | inl e => [EAlert ("Error: " +:+ message e); ESetDeploying None]
                       | inr x => [EAlert ("Deployment started! URL: " +:+ to_string x);
                                   ESetDeploying None]
                       end
                   end
                 else [EAlert "Error: Failed to deploy"; ESetDeploying None]
             end
         end
       else [EAlert "Error: Failed to create subscription"; ESetDeploying None]
   end, inr tt).
Proof.
  intros t sq dq. unfold TemplatesPageEnv.handleDeploy.
  fold t.
  cbn -[TemplatesPageEnv.subscription_request TemplatesPageEnv.deploy_request get to_string
        TemplatesPageEnv.subscription_url TemplatesPageEnv.deploy_url
        TemplatesPageEnv.subscriptionPayload TemplatesPageEnv.deployPayload].
  fold sq dq.
  destruct (w_fetch w sq) as [e|[o1 j1]]; [done|].
  cbn -[TemplatesPageEnv.deploy_request get to_string TemplatesPageEnv.deploy_url
        TemplatesPageEnv.deployPayload].
  destruct o1; [|done].
  cbn -[TemplatesPageEnv.deploy_request get to_string TemplatesPageEnv.deploy_url
        TemplatesPageEnv.deployPayload].
  destruct j1 as [e|v]; [done|].
  cbn -[TemplatesPageEnv.deploy_request get to_string TemplatesPageEnv.deploy_url
        TemplatesPageEnv.deployPayload].
  fold dq.
  destruct (w_fetch w dq) as [e|[o2 j2]]; [done|]. cbn -[get to_string].
  destruct o2; [|done]. cbn -[get to_string].
  destruct j2 as [e|v2]; [done|]. cbn -[get to_string].
  destruct (get v2 "url"); done.
Qed.

End HandlerTraces.

Module HandlerMore.
Import Js Browser TemplatesView Examples.
Import HandlerTraces.

(** X9. For a signed-in user, in both versions of the handler and for
    every way the session lookup and the two requests can settle (each
    request answered or failed): the handler throws nothing, shows
    exactly one alert, sets [deploying] to the template as its first
    effect and to [null] as its last, and sets it at no other point.
    Nothing is said here about requests that never settle, nor about
    what other clicks do to the same [deploying] state meanwhile. *)
Theorem handleDeploy_always_resets
    (API_URL : option string) (w : world) (u : user) (templateId : string)
    (tier : option string) :
  (let out := run w (TemplatesPage.handleDeploy (Some u) templateId tier) in
   out.2 = inr tt
   ∧ deploying_updates out.1 = [Some templateId; None]
   ∧ head out.1 = Some (ESetDeploying (Some templateId))
   ∧ last out.1 = Some (ESetDeploying None)
   ∧ length (alerts out.1) = 1%nat)
  ∧ (let out := run w (TemplatesPageEnv.handleDeploy API_URL (Some u) templateId tier) in
     out.2 = inr tt
     ∧ deploying_updates out.1 = [Some templateId; None]
     ∧ head out.1 = Some (ESetDeploying (Some templateId))
     ∧ last out.1 = Some (ESetDeploying None)
     ∧ length (alerts out.1) = 1%nat).
Proof.
  split.
  - rewrite page_trace. cbn [fst snd]. repeat case_match; done.
  - rewrite env_page_trace. cbn [fst snd]. repeat case_match; done.
Qed.

(** X10. The sign-in alert cannot be reached from the page: a deploy
    button that is enabled belongs to a render with a signed-in user,
    so the click starts with setting [deploying] to the template and
    sends the subscription request, in both versions; and without a user
    every deploy button is disabled. *)
Theorem enabled_button_skips_sign_in_alert
    (API_URL : option string) (w : world) (u : option user) (deploying : option string)
    (id : string) (tier : option string) :
  (u = None -> button_disabled u deploying id = true)
  ∧ (button_disabled u deploying id = false ->
     deploying ≠ Some id
     ∧ (let tr := trace w (TemplatesPage.handleDeploy u id tier) in
        ("Please sign in first" ∉ alerts tr)
        ∧ head tr = Some (ESetDeploying (Some id))
        ∧ head (requests tr)
          = Some (TemplatesPage.subscription_request (w_session w) id (default "basic" tier)))
     ∧ (let tr := trace w (TemplatesPageEnv.handleDeploy API_URL u id tier) in
        ("Please sign in first" ∉ alerts tr)
        ∧ head tr = Some (ESetDeploying (Some id))
        ∧ head (requests tr)
          = Some (TemplatesPageEnv.subscription_request API_URL (w_session w) id
                    (default "basic" tier)))).
Proof.
  split; [by intros ->|].
  unfold button_disabled. intros H. apply orb_false_elim in H as [Hu Hd].
  apply negb_false_iff, bool_decide_eq_true_1 in Hu as [usr ->].
  apply bool_decide_eq_false_1 in Hd. split; [done|]. split.
  - unfold trace. rewrite page_trace. cbn [fst snd]. split_and!; [|done|done].
    repeat case_match; cbn; rewrite list_elem_of_singleton; discriminate.
  - unfold trace. rewrite env_page_trace. cbn [fst snd]. split_and!; [|done|done].
    repeat case_match; cbn; rewrite list_elem_of_singleton; discriminate.
Qed.

Lemma enabled_button_skips_sign_in_alert_witness :
  button_disabled (Some signed_in) None "notary-assistant" = false
  ∧ head (trace accepting (TemplatesPage.handleDeploy (Some signed_in) "notary-assistant" None))
    = Some (ESetDeploying (Some "notary-assistant")).
Proof.
  split; [reflexivity|].
  apply (proj2 (enabled_button_skips_sign_in_alert None accepting (Some signed_in) None
                  "notary-assistant" None)).
  reflexivity.
Defined.

(** X11. No rollback. When the subscription went through and the
    deploy request is answered with an error status, both versions of
    the handler show [Error: Failed to deploy] and stop: the two
    requests are all that was sent, nothing is sent to undo the
    subscription. *)
Theorem failed_deploy_leaves_subscription
    (API_URL : option string) (w : world) (u : user) (templateId : string)
    (tier : option string) :
  let t := default "basic" tier in
  (let sq := TemplatesPage.subscription_request (w_session w) templateId t in
   let dq := TemplatesPage.deploy_request (w_session w) templateId t in
   forall r1 v1 r2,
     w_fetch w sq = inr r1 -> ok r1 = true -> json_body r1 = inr v1 ->
     w_fetch w dq = inr r2 -> ok r2 = false ->
     trace w (TemplatesPage.handleDeploy (Some u) templateId tier)
     = [ESetDeploying (Some templateId); EGetSession; EFetch sq; EFetch dq;
        EAlert "Error: Failed to deploy"; ESetDeploying None])
  ∧ (let sq := TemplatesPageEnv.subscription_request API_URL (w_session w) templateId t in
     let dq := TemplatesPageEnv.deploy_request API_URL (w_session w) templateId t in
     forall r1 v1 r2,
       w_fetch w sq = inr r1 -> ok r1 = true -> json_body r1 = inr v1 ->
       w_fetch w dq = inr r2 -> ok r2 = false ->
       without_logs (trace w (TemplatesPageEnv.handleDeploy API_URL (Some u) templateId tier))
       = [ESetDeploying (Some templateId); EGetSession; EFetch sq; EFetch dq;
          EAlert "Error: Failed to deploy"; ESetDeploying None]).
Proof.
  intros t. split; intros sq dq r1 v1 r2 H1 Hok1 Hj1 H2 Hok2; unfold trace.
  - rewrite page_trace. cbn [fst]. fold t sq dq. by rewrite H1, Hok1, Hj1, H2, Hok2.
  - rewrite env_page_trace. cbn [fst]. fold t sq dq. by rewrite H1, Hok1, Hj1, H2, Hok2.
Qed.

Lemma failed_deploy_leaves_subscription_witness :
  requests (trace MoreExamples.deploy_refused
              (TemplatesPage.handleDeploy (Some signed_in) "notary-assistant" (Some "pro")))
  = [TemplatesPage.subscription_request (Some (Session "token")) "notary-assistant" "pro";
     TemplatesPage.deploy_request (Some (Session "token")) "notary-assistant" "pro"].
Proof.
  rewrite (proj1 (failed_deploy_leaves_subscription None MoreExamples.deploy_refused signed_in
                    "notary-assistant" (Some "pro"))
             (Response true (inr (VObj []))) (VObj []) (Response false (inr (VObj []))));
    reflexivity.
Defined.

(** X12. What the success alert shows. When both requests are answered
    ok and the deploy answer is a JSON object, both versions of the
    handler end with one alert: [Deployment started! URL: ] followed by
    the object's [url] when that is a string, and followed by the text
    [undefined] when the object has no [url]. When the deploy answer is
    the JSON value [null], reading [url] throws: the one alert is an
    [Error: ] alert and no success alert is shown. *)
Theorem success_alert_shows_url
    (API_URL : option string) (w : world) (u : user) (templateId : string)
    (tier : option string) :
  let t := default "basic" tier in
  (let sq := TemplatesPage.subscription_request (w_session w) templateId t in
   let dq := TemplatesPage.deploy_request (w_session w) templateId t in
   let tr := trace w (TemplatesPage.handleDeploy (Some u) templateId tier) in
   forall r1 v1 r2,
     w_fetch w sq = inr r1 -> ok r1 = true -> json_body r1 = inr v1 ->
     w_fetch w dq = inr r2 -> ok r2 = true ->
     (forall fields address, json_body r2 = inr (VObj fields) ->
        lookup_field "url" fields = VStr address ->
        alerts tr = ["Deployment started! URL: " +:+ address])
     ∧ (forall fields, json_body r2 = inr (VObj fields) ->
        lookup_field "url" fields = VUndefined ->
        alerts tr = ["Deployment started! URL: undefined"])
     ∧ (json_body r2 = inr VNull -> exists reason, alerts tr = ["Error: " +:+ reason]))
  ∧ (let sq := TemplatesPageEnv.subscription_request API_URL (w_session w) templateId t in
     let dq := TemplatesPageEnv.deploy_request API_URL (w_session w) templateId t in
     let tr := trace w (TemplatesPageEnv.handleDeploy API_URL (Some u) templateId tier) in
     forall r1 v1 r2,
       w_fetch w sq = inr r1 -> ok r1 = true -> json_body r1 = inr v1 ->
       w_fetch w dq = inr r2 -> ok r2 = true ->
       (forall fields address, json_body r2 = inr (VObj fields) ->
          lookup_field "url" fields = VStr address ->
          alerts tr = ["Deployment started! URL: " +:+ address])
       ∧ (forall fields, json_body r2 = inr (VObj fields) ->
          lookup_field "url" fields = VUndefined ->
          alerts tr = ["Deployment started! URL: undefined"])
       ∧ (json_body r2 = inr VNull -> exists reason, alerts tr = ["Error: " +:+ reason])).
Proof.
  intros t. split; intros sq dq tr r1 v1 r2 H1 Hok1 Hj1 H2 Hok2; subst tr; unfold trace.
  - rewrite page_trace. cbn [fst]. fold t sq dq. rewrite H1, Hok1, Hj1, H2, Hok2.
    split_and!.
    + intros fields address Hj2 Hurl. rewrite Hj2. cbn [get]. by rewrite Hurl.
    + intros fields Hj2 Hurl. rewrite Hj2. cbn [get]. by rewrite Hurl.
    + intros Hj2. rewrite Hj2. by eexists.
  - rewrite env_page_trace. cbn [fst]. fold t sq dq. rewrite H1, Hok1, Hj1, H2, Hok2.
    split_and!.
    + intros fields address Hj2 Hurl. rewrite Hj2. cbn [get]. by rewrite Hurl.
    + intros fields Hj2 Hurl. rewrite Hj2. cbn [get]. by rewrite Hurl.
    + intros Hj2. rewrite Hj2. by eexists.
Qed.

Lemma success_alert_shows_url_witness :
  alerts (trace MoreExamples.no_url
            (TemplatesPage.handleDeploy (Some signed_in) "notary-assistant" None))
  = ["Deployment started! URL: undefined"]
  ∧ alerts (trace accepting
              (TemplatesPage.handleDeploy (Some signed_in) "notary-assistant" None))
    = ["Deployment started! URL: https://notary.example.com"].
Proof.
  split.
  - apply (proj1 (proj2 (proj1 (success_alert_shows_url None MoreExamples.no_url signed_in
                                  "notary-assistant" None)
                           (Response true (inr (VObj [("status", VStr "deploying")])))
                           (VObj [("status", VStr "deploying")])
                           (Response true (inr (VObj [("status", VStr "deploying")])))
                           eq_refl eq_refl eq_refl eq_refl eq_refl))
             [("status", VStr "deploying")] eq_refl eq_refl).
  - apply (proj1 (proj1 (success_alert_shows_url None accepting signed_in
                           "notary-assistant" None)
                    (Response true (inr (VObj [("url", VStr "https://notary.example.com");
                                               ("status", VStr "deploying")])))
                    (VObj [("url", VStr "https://notary.example.com");
                           ("status", VStr "deploying")])
                    (Response true (inr (VObj [("url", VStr "https://notary.example.com");
                                               ("status", VStr "deploying")])))
                    eq_refl eq_refl eq_refl eq_refl eq_refl)
             [("url", VStr "https://notary.example.com"); ("status", VStr "deploying")]
             "https://notary.example.com" eq_refl eq_refl).
Defined.

(** X13. Failures are shown as they come. In both versions: a request
    that does not get through (the promise rejects) ends the run with
    the alert [Error: ] followed by the error's message, after one
    request if it was the subscription request and after two if it was
    the deploy request; and an ok subscription answer whose body is not
    JSON ends the run the same way before any deploy request is sent. *)
Theorem transport_failures_are_alerted
    (API_URL : option string) (w : world) (u : user) (templateId : string)
    (tier : option string) :
  let t := default "basic" tier in
  (let sq := TemplatesPage.subscription_request (w_session w) templateId t in
   let dq := TemplatesPage.deploy_request (w_session w) templateId t in
   let tr := trace w (TemplatesPage.handleDeploy (Some u) templateId tier) in
   (forall e, w_fetch w sq = inl e ->
      requests tr = [sq] ∧ alerts tr = ["Error: " +:+ message e])
   ∧ (forall r1 e, w_fetch w sq = inr r1 -> ok r1 = true -> json_body r1 = inl e ->
      requests tr = [sq] ∧ alerts tr = ["Error: " +:+ message e])
   ∧ (forall r1 v1 e, w_fetch w sq = inr r1 -> ok r1 = true -> json_body r1 = inr v1 ->
      w_fetch w dq = inl e ->
      requests tr = [sq; dq] ∧ alerts tr = ["Error: " +:+ message e]))
  ∧ (let sq := TemplatesPageEnv.subscription_request API_URL (w_session w) templateId t in
     let dq := TemplatesPageEnv.deploy_request API_URL (w_session w) templateId t in
     let tr := trace w (TemplatesPageEnv.handleDeploy API_URL (Some u) templateId tier) in
     (forall e, w_fetch w sq = inl e ->
        requests tr = [sq] ∧ alerts tr = ["Error: " +:+ message e])
     ∧ (forall r1 e, w_fetch w sq = inr r1 -> ok r1 = true -> json_body r1 = inl e ->
        requests tr = [sq] ∧ alerts tr = ["Error: " +:+ message e])
     ∧ (forall r1 v1 e, w_fetch w sq = inr r1 -> ok r1 = true -> json_body r1 = inr v1 ->
        w_fetch w dq = inl e ->
        requests tr = [sq; dq] ∧ alerts tr = ["Error: " +:+ message e])).
Proof.
  intros t. split; intros sq dq tr; subst tr; unfold trace.
  - rewrite page_trace. cbn [fst]. fold t sq dq. split_and!.
    + intros e H1. by rewrite H1.
    + intros r1 e H1 Hok1 Hj1. by rewrite H1, Hok1, Hj1.
    + intros r1 v1 e H1 Hok1 Hj1 H2. by rewrite H1, Hok1, Hj1, H2.
  - rewrite env_page_trace. cbn [fst]. fold t sq dq. split_and!.
    + intros e H1. by rewrite H1.
    + intros r1 e H1 Hok1 Hj1. by rewrite H1, Hok1, Hj1.
    + intros r1 v1 e H1 Hok1 Hj1 H2. by rewrite H1, Hok1, Hj1, H2.
Qed.

Lemma transport_failures_are_alerted_witness :
  alerts (trace MoreExamples.offline
            (TemplatesPage.handleDeploy (Some signed_in) "notary-assistant" None))
  = ["Error: Failed to fetch"].
Proof.
  apply (proj1 (proj1 (transport_failures_are_alerted None MoreExamples.offline signed_in
                         "notary-assistant" None))
           (Error "Failed to fetch") eq_refl).
Defined.



Lemma rebase_requests API_URL s templateId t :
  rebase API_URL (TemplatesPage.subscription_request s templateId t)
    = TemplatesPageEnv.subscription_request API_URL s templateId t
  ∧ rebase API_URL (TemplatesPage.deploy_request s templateId t)
    = TemplatesPageEnv.deploy_request API_URL s templateId t.
Proof. done. Qed.

(** X15. The two versions of the handler are the same program up to the
    base address and the log lines: for every world, the trace of the
    environment-configured handler with its [console.log] lines removed
    is the trace of the plain handler, run against the same server
    reached through the configured address, with that address in each
    request. With [NEXT_PUBLIC_API_URL] set to [http://localhost:8000]
    the two send identical requests. *)
Theorem env_handler_simulates_plain_handler
    (API_URL : option string) (w : world) (u : option user) (templateId : string)
    (tier : option string) :
  without_logs (trace w (TemplatesPageEnv.handleDeploy API_URL u templateId tier))
  = rebase_event API_URL
      <$> trace (World (w_session w) (fun r => w_fetch w (rebase API_URL r)))
            (TemplatesPage.handleDeploy u templateId tier)
  ∧ (forall r, rebase (Some "http://localhost:8000") r = r).
Proof.
  split.
  - destruct u as [u|]; [|done]. unfold trace.
    rewrite page_trace, env_page_trace. cbn [fst w_session w_fetch].
    destruct (rebase_requests API_URL (w_session w) templateId (default "basic" tier))
      as [-> ->].
    set (sq := TemplatesPageEnv.subscription_request _ _ _ _).
    set (dq := TemplatesPageEnv.deploy_request _ _ _ _).
    assert (rebase_event API_URL (EFetch (TemplatesPage.subscription_request (w_session w)
              templateId (default "basic" tier))) = EFetch sq) as Hs by done.
    assert (rebase_event API_URL (EFetch (TemplatesPage.deploy_request (w_session w)
              templateId (default "basic" tier))) = EFetch dq) as Hd by done.
    destruct (w_fetch w sq) as [e|[o1 j1]]; [by rewrite !fmap_cons, Hs|].
    cbn [ok json_body]. destruct o1; [|by rewrite !fmap_cons, Hs].
    destruct j1 as [e|v1]; [by rewrite !fmap_cons, Hs|].
    destruct (w_fetch w dq) as [e|[o2 j2]]; [by rewrite !fmap_cons, Hs, Hd|].
    cbn [ok json_body]. destruct o2; [|by rewrite !fmap_cons, Hs, Hd].
    destruct j2 as [e|v2]; [by rewrite !fmap_cons, Hs, Hd|].
    destruct (get v2 "url"); by rewrite !fmap_cons, Hs, Hd.
  - intros [url m h b]. unfold rebase. cbn.
    repeat case_bool_decide; by subst.
Qed.

End HandlerMore.

Module LoginFacts.
Import Js Prog LoginPage.

(** X16. Signing in. Whatever the identity provider answers,
    [handleSignIn] cancels the form's default submission, turns
    [loading] on, clears the message and asks the provider with the
    email and password as typed; it ends by turning [loading] off and
    throws nothing. It navigates, to [/dashboard], exactly when the
    provider answers without an error, and then sets no message; when
    the provider answers with an error, or the call itself fails, it
    shows [Error: ] followed by the error's message and stays on the
    page. *)
Theorem sign_in_outcomes
    (verdict : string -> string -> error + option error) (email password : string) :
  let out := run (answer verdict) log (handleSignIn email password) in
  out.2 = inr tt
  ∧ out.1
    = [EPreventDefault; ESetLoading true; ESetMessage ""; ESignIn email password]
      ++ match verdict email password with
         | inr None => [EPush "/dashboard"]
         | inr (Some e) | inl e => [ESetMessage ("Error: " +:+ message e)]
         end
      ++ [ESetLoading false]
  ∧ loading_updates out.1 = [true; false]
  ∧ (navigations out.1 = ["/dashboard"] ∧ messages out.1 = [""]
     ∨ navigations out.1 = [] ∧ exists e, messages out.1 = [""; "Error: " +:+ message e])
  ∧ (navigations out.1 = ["/dashboard"] <-> verdict email password = inr None).
Proof.
  intros out. subst out. unfold handleSignIn. cbn.
  destruct (verdict email password) as [e|[e|]]; cbn; split_and!; try done;
    try (left; done); try (right; split; [done|by exists e]);
    split; done.
Qed.

End LoginFacts.

Module LoadFacts.
Import Js Browser Prog TemplatesLoad.

(** X17. Loading the catalogue. The chain that fetches the templates
    sends one [GET], handles every failure itself and always ends by
    turning [loading] off, once. The response's status is never looked
    at: any answer whose body is a JSON object, an error answer
    included, sets [templates] to the object's [templates] property,
    which is [undefined] when the object has none, and logs nothing. A
    request that fails, a body that is not JSON or is [null] is logged
    with [console.error] and leaves [templates] as it was. The chain
    that looks up the user has no handler: when [getUser] fails nothing
    is set and the rejection stays unhandled. *)
Theorem templates_load_outcomes
    (who : error + option user) (server : request -> error + response) (url : string) :
  let out := run (answer who server) log (load_templates url) in
  out.2 = inr tt
  ∧ omap (fun ev => match ev with ESetLoading b => Some b | _ => None end) out.1 = [false]
  ∧ out.1
    = EFetch (templates_request url)
      :: match server (templates_request url) with
         | inl e => [EConsoleError "Error fetching templates:" e; ESetLoading false]
         | inr res =>
             match json_body res with
             | inl e => [EConsoleError "Error fetching templates:" e; ESetLoading false]
             | inr (VObj fields) =>
                 [ESetTemplates (lookup_field "templates" fields); ESetLoading false]
             | inr VNull =>
                 [EConsoleError "Error fetching templates:"
                    (Error "Cannot read properties of null (reading 'templates')");
                  ESetLoading false]
             | inr VUndefined =>
                 [EConsoleError "Error fetching templates:"
                    (Error "Cannot read properties of undefined (reading 'templates')");
                  ESetLoading false]
             | inr _ => [ESetTemplates VUndefined; ESetLoading false]
             end
         end
  ∧ run (answer who server) log load_user
    = match who with
      | inl e => ([EGetUser], inl e)
      | inr u => ([EGetUser; ESetUser u], inr tt)
      end.
Proof.
  intros out. subst out. unfold load_templates, load_user. cbn.
  destruct who as [e0|u0]; destruct (server (templates_request url)) as [e|[o j]]; cbn;
    try done; destruct j as [e|[]]; cbn; done.
Qed.

End LoadFacts.

Module MiddlewareMore.
Import Browser Middleware.

(** X18. No redirect loop. When the middleware redirects, there was no
    session and the target is [/login] on the origin of the request;
    and a request for that target, with any query and with or without
    a session, is let through. *)
Theorem redirect_target_is_let_through
    (s : option session) (req : NextRequest) (location : string) :
  middleware s req = redirect location ->
  s = None
  ∧ location = origin req +:+ "/login"
  ∧ forall s' query,
      middleware s' {| origin := origin req; pathname := "/login"; search := query |} = next.
Proof.
  unfold middleware. intros H. split_and!.
  - destruct s as [x|]; [|done].
    rewrite (bool_decide_eq_true_2 (is_Some (Some x))) in H by eauto. done.
  - destruct (_ && _) in H; [|done]. by injection H as <-.
  - intros s' query. unfold isPublicRoute, publicRoutes. cbn.
    by rewrite andb_false_r.
Qed.

Lemma redirect_target_is_let_through_witness :
  middleware None {| origin := "https://app.example.com"; pathname := "/profile";
                     search := "" |}
    = redirect "https://app.example.com/login"
  ∧ middleware None {| origin := "https://app.example.com"; pathname := "/login";
                       search := "" |} = next.
Proof.
  split; [reflexivity|].
  apply (redirect_target_is_let_through None
           {| origin := "https://app.example.com"; pathname := "/profile"; search := "" |}
           "https://app.example.com/login").
  reflexivity.
Defined.

End MiddlewareMore.
